(** * repoed: the ignore-pattern engine, file discovery and document assembly

    A shallow embedding of [repoed.py].  The program runs on a POSIX
    system: [os.sep] is "/", [os.path.normcase] is the identity, and
    path functions are those of [posixpath].  Python strings are modelled
    as [string] (characters are 8-bit [ascii] values, compared by code
    point). *)

From Stdlib Require Import Ascii String List Bool Arith Lia.
From stdpp Require Import base list strings gmap sorting.

(** ** Python string methods used by the program *)

Module Py.

(** [s.startswith(prefix)] *)
Definition startswith (s prefix : string) : bool := String.prefix prefix s.

(** [s.endswith(suffix)]: some tail of [s] is [suffix]. *)
Fixpoint endswith (s suffix : string) : bool :=
  String.eqb s suffix
  || match s with
     | EmptyString => false
     | String _ s' => endswith s' suffix
     end.

(** [s[1:]] *)
Definition drop_first (s : string) : string :=
  match s with
  | EmptyString => EmptyString
  | String _ s' => s'
  end.

(** [s.rstrip(ch)] for a one-character argument: every trailing
    occurrence of [ch] is removed. *)
Fixpoint rstrip (s : string) (ch : ascii) : string :=
  match s with
  | EmptyString => EmptyString
  | String c s' =>
      match rstrip s' ch with
      | EmptyString => if Ascii.eqb c ch then EmptyString else String c EmptyString
      | r => String c r
      end
  end.

(** [ch in s] *)
Fixpoint contains (ch : ascii) (s : string) : bool :=
  match s with
  | EmptyString => false
  | String c s' => Ascii.eqb ch c || contains ch s'
  end.

(** [posixpath.basename(p)]: [p[p.rfind('/')+1:]], the text after the
    last separator (all of [p] when it has none). *)
Fixpoint basename (p : string) : string :=
  match p with
  | EmptyString => EmptyString
  | String c p' =>
      if contains "/"%char p' then basename p'
      else if Ascii.eqb c "/"%char then p' else p
  end.

(** [s.split(sep)] for a one-character separator. *)
Fixpoint split (s : string) (sep : ascii) : list string :=
  match s with
  | EmptyString => [EmptyString]
  | String c s' =>
      if Ascii.eqb c sep then EmptyString :: split s' sep
      else match split s' sep with
           | [] => [String c EmptyString]
           | first :: others => String c first :: others
           end
  end.

(** [posixpath.join(a, b)] *)
Definition join (a b : string) : string :=
  if startswith b "/" then b
  else if String.eqb a "" || endswith a "/" then a +:+ b
  else a +:+ "/" +:+ b.

End Py.

(** ** [fnmatch.fnmatch] of the Python standard library

    [translate] turns a shell pattern into a regular expression, which
    is then matched against the whole name.  The regular expression is a
    sequence of items; the compression of consecutive stars and the
    atomic groups that CPython emits do not change the language and are
    left out. *)

Module Fnmatch.

Inductive re_item : Type :=
| Star                                                  (* [.*] *)
| AnyChar                                               (* [.] under DOTALL *)
| CharSet (negated : bool) (first : list ascii) (rest : list (list ascii))
    (* a bracket expression given by its chunks: the characters of a
       chunk stand for themselves, and the last character of a chunk
       forms a range with the first character of the next one *)
| Lit (c : ascii).

(** The scan for the closing bracket: [stuff = pat[i:j]].  An initial
    "!" and then an initial "]" are skipped before the first "]" is
    looked for; [None] when the bracket is never closed. *)
Fixpoint until_close (s : list ascii) : option (list ascii) :=
  match s with
  | [] => None
  | c :: s' =>
      if Ascii.eqb c "]"%char then Some []
      else option_map (cons c) (until_close s')
  end.

Definition bracket_stuff (s : list ascii) : option (list ascii) :=
  let '(bang, s1) :=
    match s with
    | c :: t => if Ascii.eqb c "!"%char then ([c], t) else ([], s)
    | [] => ([], s)
    end in
  let '(brk, s2) :=
    match s1 with
    | c :: t => if Ascii.eqb c "]"%char then ([c], t) else ([], s1)
    | [] => ([], s1)
    end in
  option_map (fun mid => bang ++ brk ++ mid) (until_close s2).

(** The split of [stuff] at the hyphens that make ranges.  [skip]
    counts the characters that [pat.find('-', k, j)] does not look at:
    one (two after "!") at the start, two after each range hyphen.
    [cur] is the chunk being read, last character first. *)
Fixpoint split_chunks (skip : nat) (cur : list ascii) (s : list ascii)
  : list (list ascii) :=
  match s with
  | [] => [rev cur]
  | c :: s' =>
      match skip with
      | S n => split_chunks n (c :: cur) s'
      | O =>
          if Ascii.eqb c "-"%char then rev cur :: split_chunks 2 [] s'
          else split_chunks 0 (c :: cur) s'
      end
  end.

(** [if chunk: chunks.append(chunk) else: chunks[-1] += '-'] *)
Definition close_chunks (chunks : list (list ascii)) : list (list ascii) :=
  match rev chunks with
  | [] :: prev :: before => rev ((prev ++ ["-"%char]) :: before)
  | _ => chunks
  end.

(** The removal of empty ranges, from the last pair of chunks to the
    first: when the end of a chunk is above the start of the next one
    the two characters go and the chunks are glued. *)
Fixpoint remove_empty_ranges (chunks : list (list ascii)) : list (list ascii) :=
  match chunks with
  | [] => []
  | ch :: rest =>
      match remove_empty_ranges rest with
      | [] => [ch]
      | nxt :: rest' =>
          if Ascii.ltb (List.hd "000"%char nxt) (List.last ch "000"%char)
          then (removelast ch ++ tl nxt) :: rest'
          else ch :: nxt :: rest'
      end
  end.

Definition chunks_of (stuff : list ascii) : list (list ascii) :=
  let skip := match stuff with
              | c :: _ => if Ascii.eqb c "!"%char then 2 else 1
              | [] => 1
              end in
  remove_empty_ranges (close_chunks (split_chunks skip [] stuff)).

(** The item for a closed bracket: negated when the processed text
    starts with "!".  An empty set never matches and a negated empty
    set matches every character, as [(?!)] and [.] do. *)
Definition charset_of (stuff : list ascii) : re_item :=
  match chunks_of stuff with
  | [] => CharSet false [] []
  | [] :: rest => CharSet false [] rest
  | (c :: first) :: rest =>
      if Ascii.eqb c "!"%char then CharSet true first rest
      else CharSet false (c :: first) rest
  end.

(** The main loop of [translate].  [skip] is the number of characters
    still to pass over after a bracket expression ([i = j+1]). *)
Fixpoint translate_from (skip : nat) (pat : list ascii) : list re_item :=
  match pat with
  | [] => []
  | c :: rest =>
      match skip with
      | S n => translate_from n rest
      | O =>
          if Ascii.eqb c "*"%char then Star :: translate_from 0 rest
          else if Ascii.eqb c "?"%char then AnyChar :: translate_from 0 rest
          else if Ascii.eqb c "["%char then
            match bracket_stuff rest with
            | None => Lit "["%char :: translate_from 0 rest
            | Some stuff => charset_of stuff :: translate_from (S (length stuff)) rest
            end
          else Lit c :: translate_from 0 rest
      end
  end.

Definition translate (pat : list ascii) : list re_item := translate_from 0 pat.

(** Membership of a character in a bracket expression. *)
Definition in_range (lo hi c : ascii) : bool := Ascii.leb lo c && Ascii.leb c hi.

Fixpoint in_chunks (c : ascii) (cur : list ascii) (rest : list (list ascii)) : bool :=
  match rest with
  | [] => existsb (Ascii.eqb c) cur
  | nxt :: rest' =>
      existsb (Ascii.eqb c) (removelast cur)
      || in_range (List.last cur "000"%char) (List.hd "000"%char nxt) c
      || in_chunks c (tl nxt) rest'
  end.

Definition item_accepts (it : re_item) (c : ascii) : bool :=
  match it with
  | Star => true
  | AnyChar => true
  | CharSet negated first rest => xorb negated (in_chunks c first rest)
  | Lit d => Ascii.eqb c d
  end.

(** [re.compile(res).match(name)] with the pattern closed by [\Z]:
    the items must consume the whole name. *)
Fixpoint re_match (res : list re_item) (name : list ascii) {struct res} : bool :=
  match res with
  | [] => match name with [] => true | _ => false end
  | Star :: res' =>
      (fix star (s : list ascii) : bool :=
         re_match res' s
         || match s with
            | [] => false
            | _ :: s' => star s'
            end) name
  | it :: res' =>
      match name with
      | [] => false
      | c :: name' => item_accepts it c && re_match res' name'
      end
  end.

Definition fnmatchcase (name pat : string) : bool :=
  re_match (translate (list_ascii_of_string pat)) (list_ascii_of_string name).

(** [os.path.normcase] is the identity on POSIX. *)
Definition fnmatch (name pat : string) : bool := fnmatchcase name pat.

End Fnmatch.

(** ** [is_ignored] *)

Definition os_sep : string := "/".

(** [any(char in pattern for char in "*?[")] *)
Definition has_wildcard (pattern : string) : bool :=
  existsb (fun char => Py.contains char pattern) ["*"; "?"; "["]%char.

(** One iteration of the loop of [is_ignored]: the value of [ignore]
    after the body has run on [pattern]. *)
Definition is_ignored_body (file_path : string) (ignore : bool) (pattern : string) : bool :=
  let '(negative, pattern) :=
    if Py.startswith pattern "!" then (true, Py.drop_first pattern)
    else (false, pattern) in
  let pattern :=
    if Py.startswith pattern "/" then Py.drop_first pattern else pattern in
  if Py.endswith pattern "/" then
    let pat := Py.rstrip pattern "/" in
    if String.eqb file_path pat || Py.startswith file_path (pat +:+ os_sep)
    then negb negative
    else ignore
  else
    if negb (has_wildcard pattern)
       && (String.eqb file_path pattern || Py.startswith file_path (pattern +:+ os_sep))
    then negb negative
    else
      if Fnmatch.fnmatch file_path pattern
         || Fnmatch.fnmatch (Py.basename file_path) pattern
      then negb negative
      else ignore.

Definition is_ignored (file_path : string) (ignore_patterns : list string) : bool :=
  fold_left (is_ignored_body file_path) ignore_patterns false.

(** *** The parts of an ignore line, as the loop body computes them *)

(** [negative]: the line starts with "!". *)
Definition negated (line : string) : bool := Py.startswith line "!".

(** The text of the pattern once the leading "!" and the leading "/"
    are gone. *)
Definition pattern_text (line : string) : string :=
  let pattern := if Py.startswith line "!" then Py.drop_first line else line in
  if Py.startswith pattern "/" then Py.drop_first pattern else pattern.

(** The pattern is written with a trailing "/". *)
Definition directory_only (line : string) : bool :=
  Py.endswith (pattern_text line) "/".

(** The text a directory pattern is compared with: [pattern.rstrip('/')]. *)
Definition directory_text (line : string) : string :=
  Py.rstrip (pattern_text line) "/"%char.

(** A line matches a path when the loop body assigns [ignore]: the
    value after the body does not depend on the value before it. *)
Definition pattern_matches (file_path line : string) : bool :=
  Bool.eqb (is_ignored_body file_path true line) (is_ignored_body file_path false line).

(** [file_path == text or file_path.startswith(text + os.sep)] *)
Definition equal_or_inside (file_path text : string) : bool :=
  String.eqb file_path text || Py.startswith file_path (text +:+ os_sep).

(** ** Exceptions

    A call returns a value, raises an exception derived from
    [Exception] (kept as its text, [str(e)]), or leaves through
    [sys.exit]. *)

Inductive result (A : Type) : Type :=
| Return (a : A)
| Raised (e : string)
| SysExit (code : nat).

Arguments Return {A} a.
Arguments Raised {A} e.
Arguments SysExit {A} code.

Definition bind {A B : Type} (c : result A) (k : A -> result B) : result B :=
  match c with
  | Return a => k a
  | Raised e => Raised e
  | SysExit code => SysExit code
  end.

(** [try: c  except Exception as e: handler(e)] *)
Definition try_except {A : Type} (c : result A) (handler : string -> result A) : result A :=
  match c with
  | Raised e => handler e
  | _ => c
  end.

Declare Scope py_scope.
Delimit Scope py_scope with py.
Notation "x <- c ;; k" := (bind c (fun x => k))
  (at level 100, c at next level, right associativity) : py_scope.

(** A [for] loop whose body may raise: the state is threaded through
    the iterations, and the first exception ends the loop. *)
Fixpoint for_each {A S : Type} (items : list A) (body : S -> A -> result S) (s : S)
  : result S :=
  match items with
  | [] => Return s
  | x :: items' => bind (body s x) (for_each items' body)
  end.

(** ** The file system the run sees *)

(** A directory entry, with the entries of a directory in the order in
    which [os.scandir] lists them. *)
#[local] Set Warnings "-register-all".

Inductive entry : Type :=
| File (name : string)
| Dir (name : string) (children : list entry).

Definition file_names (entries : list entry) : list string :=
  flat_map (fun e => match e with File name => [name] | Dir _ _ => [] end) entries.

Definition dir_names (entries : list entry) : list string :=
  flat_map (fun e => match e with File _ => [] | Dir name _ => [name] end) entries.

(** [l.remove(x)]: the first occurrence goes. *)
Fixpoint list_remove (x : string) (l : list string) : list string :=
  match l with
  | [] => []
  | y :: l' => if String.eqb y x then l' else y :: list_remove x l'
  end.

Record world : Type := {
  isdir_git : bool;                        (* os.path.isdir(".git") *)
  exists_gitignore : bool;                 (* os.path.exists(".gitignore") *)
  exists_readme : bool;                    (* os.path.exists("README.md") *)
  gitignore_patterns : list string;        (* what read_gitignore() returns *)
  git_commits : list string;               (* what get_git_commits() returns *)
  top_entries : list entry;                (* the entries of "." during the walk *)
  open_read : string -> string + string    (* open(p, "r") and f.read(): the
                                              text, or the exception raised *)
}.

(** ** [gather_source_files] *)

(** [os.walk(".")] as [gather_source_files] drives it.  The generator
    yields [(root, dirs, files)] for a directory and then walks the
    directories still in [dirs]; the loop body removes ".git" from that
    very list before the generator goes on, so the first directory named
    ".git" is not walked.  The triple carries [dirs] as the body leaves
    it.  [dir] is the directory found at the path [top]; a path that is
    not a directory yields nothing. *)
Fixpoint os_walk (top : string) (dir : entry) {struct dir}
  : list (string * list string * list string) :=
  match dir with
  | File _ => []
  | Dir _ entries =>
      (top, list_remove ".git" (dir_names entries), file_names entries)
      :: (fix descend (es : list entry) (removed : bool)
            : list (string * list string * list string) :=
            match es with
            | [] => []
            | File _ :: es' => descend es' removed
            | (Dir name _ as sub) :: es' =>
                if negb removed && String.eqb name ".git" then descend es' true
                else os_walk (Py.join top name) sub ++ descend es' removed
            end) entries false
  end.

(** The body of the inner loop, [for file in files]. *)
Definition gather_file (ignore_patterns : list string) (exclude_files : gset string)
    (root : string) (source_files : list string) (file : string) : list string :=
  let rel_path := Py.join root file in
  let rel_path :=
    if Py.startswith rel_path "./" then Py.drop_first (Py.drop_first rel_path)
    else rel_path in
  if bool_decide (rel_path ∈ exclude_files) then source_files
  else if is_ignored rel_path ignore_patterns then source_files
  else source_files ++ [rel_path].

Definition gather_source_files (entries : list entry)
    (ignore_patterns : list string) (exclude_files : gset string) : list string :=
  fold_left
    (fun source_files '(root, _, files) =>
       fold_left (gather_file ignore_patterns exclude_files root) files source_files)
    (os_walk "." (Dir "." entries)) [].

(** ** [read_file_content] and [main] *)

Definition nl : string := String "010"%char "".

Definition open_and_read (w : world) (file_path : string) : result string :=
  match open_read w file_path with
  | inl content => Return content
  | inr e => Raised e
  end.

Definition read_file_content (w : world) (file_path : string) : result string :=
  try_except (open_and_read w file_path)
    (fun e => Return ("Error reading file: " +:+ e)).

(** [outfile.write(text)]: the text goes to the end of the file. *)
Definition write (outfile text : string) : string := outfile +:+ text.

(** [source_files.sort()] *)
Definition sort (l : list string) : list string := merge_sort String.le l.

Definition output_filename : string := "repoed.md".
Definition readme_path : string := "README.md".

(** [exclude_files = {readme_path, ".gitignore", output_filename}] *)
Definition main_exclude_files : gset string :=
  {[ readme_path; ".gitignore"; output_filename ]}.

(** The list [main] renders: the gathered files, sorted. *)
Definition main_source_files (w : world) : list string :=
  sort (gather_source_files (top_entries w) (gitignore_patterns w) main_exclude_files).

(** [main]: the result is the text written to [repoed.md]. *)
Definition main (w : world) : result string :=
  (if negb (isdir_git w) then SysExit 1
   else if negb (exists_gitignore w) then SysExit 1
   else
     let ignore_patterns := gitignore_patterns w in
     let commits := git_commits w in
     let outfile := "" in
     let outfile :=
       match commits with
       | _ :: _ =>
           let outfile := write outfile ("### Last Commits" +:+ nl) in
           fold_left (fun outfile commit => write outfile ("- " +:+ commit +:+ nl))
             commits outfile
       | [] =>
           let outfile := write outfile ("### Last Commits" +:+ nl) in
           write outfile ("- Not committed yet" +:+ nl)
       end in
     let outfile := write outfile nl in
     let outfile := write outfile ("### README.md" +:+ nl) in
     outfile <-
       (if exists_readme w && negb (is_ignored readme_path ignore_patterns) then
          let outfile := write outfile (nl +:+ "```" +:+ nl) in
          content <- read_file_content w readme_path ;;
          let outfile := write outfile (content +:+ nl) in
          Return (write outfile ("```" +:+ nl))
        else Return (write outfile (nl +:+ "- Does not exist" +:+ nl))) ;;
     let outfile := write outfile ("---" +:+ nl +:+ nl) in
     let source_files := main_source_files w in
     for_each source_files
       (fun outfile file =>
          let outfile := write outfile ("### " +:+ file +:+ nl) in
          let outfile := write outfile (nl +:+ "```" +:+ nl) in
          content <- read_file_content w file ;;
          let outfile := write outfile (content +:+ nl) in
          let outfile := write outfile ("```" +:+ nl) in
          Return (write outfile ("---" +:+ nl +:+ nl)))
       outfile)%py.

(** ** The document as the specification lays it out

    These definitions follow section 4.3 of the specification; [main]
    above is compared with them. *)

Definition concat_strings (l : list string) : string :=
  fold_right String.append "" l.

Definition delimiter : string := "---" +:+ nl +:+ nl.

Definition bullet (text : string) : string := "- " +:+ text +:+ nl.

Definition fenced (content : string) : string :=
  nl +:+ "```" +:+ nl +:+ content +:+ nl +:+ "```" +:+ nl.

(** Header, one bullet per message or the single placeholder bullet,
    one blank line. *)
Definition commits_section (messages : list string) : string :=
  "### Last Commits" +:+ nl
  +:+ match messages with
      | [] => bullet "Not committed yet"
      | _ :: _ => concat_strings (map bullet messages)
      end
  +:+ nl.

(** Header, the fenced content or the bullet that notes the absence,
    the delimiter. *)
Definition readme_section (content : option string) : string :=
  "### README.md" +:+ nl
  +:+ match content with
      | Some text => fenced text
      | None => nl +:+ bullet "Does not exist"
      end
  +:+ delimiter.

Definition file_section (path content : string) : string :=
  "### " +:+ path +:+ nl +:+ fenced content +:+ delimiter.

(** What the file reader hands over for a path: the content, or the
    error note. *)
Definition file_text (w : world) (path : string) : string :=
  match open_read w path with
  | inl content => content
  | inr e => "Error reading file: " +:+ e
  end.

(** [readmeLookup]: the README text when the file exists and is not
    ignored. *)
Definition readme_lookup (w : world) : option string :=
  if exists_readme w && negb (is_ignored readme_path (gitignore_patterns w))
  then Some (file_text w readme_path)
  else None.

(** ** Notions used to state the properties of the walk *)

(** The generator's loop over [dirs], as a function of its own: the
    directories of [es] are walked in order, the first one named ".git"
    apart when [removed] is still [false]. *)
Fixpoint descend (top : string) (es : list entry) (removed : bool)
  : list (string * list string * list string) :=
  match es with
  | [] => []
  | File _ :: es' => descend top es' removed
  | (Dir name _ as sub) :: es' =>
      if negb removed && String.eqb name ".git" then descend top es' true
      else os_walk (Py.join top name) sub ++ descend top es' removed
  end.

(** [rel_path] for a file of the directory [root]. *)
Definition rel_path (root file : string) : string :=
  let rel_path := Py.join root file in
  if Py.startswith rel_path "./" then Py.drop_first (Py.drop_first rel_path)
  else rel_path.

(** Every path the inner loop looks at, in the order of the walk. *)
Definition paths_of (triples : list (string * list string * list string))
  : list string :=
  flat_map (fun '(root, _, files) => map (rel_path root) files) triples.

Definition candidates (entries : list entry) : list string :=
  paths_of (os_walk "." (Dir "." entries)).

(** The two tests of the inner loop. *)
Definition kept (ignore_patterns : list string) (exclude_files : gset string)
    (path : string) : bool :=
  negb (bool_decide (path ∈ exclude_files)) && negb (is_ignored path ignore_patterns).

(** *** What a file system guarantees

    The name of an entry is not empty and holds no separator, and the
    entries of one directory have different names. *)

Definition entry_name (e : entry) : string :=
  match e with
  | File name => name
  | Dir name _ => name
  end.

Definition valid_name (name : string) : bool :=
  negb (String.eqb name "") && negb (Py.contains "/"%char name).

Fixpoint distinct (names : list string) : bool :=
  match names with
  | [] => true
  | name :: names' => negb (existsb (String.eqb name) names') && distinct names'
  end.

Fixpoint well_formed (e : entry) : bool :=
  match e with
  | File name => valid_name name
  | Dir name entries =>
      valid_name name
      && distinct (map entry_name entries)
      && (fix all (es : list entry) : bool :=
            match es with
            | [] => true
            | e' :: es' => well_formed e' && all es'
            end) entries
  end.

(** The directories a path goes through: its components but the last. *)
Definition directories_of (path : string) : list string :=
  removelast (Py.split path "/"%char).

(** The walk of one entry of a directory: nothing for a file and for a
    directory named ".git", the walk of the directory otherwise. *)
Definition walk_sub (top : string) (e : entry)
  : list (string * list string * list string) :=
  match e with
  | File _ => []
  | Dir name _ =>
      if String.eqb name ".git" then [] else os_walk (Py.join top name) e
  end.

(** The path of the directory reached from "." through the directories
    [ds]: "." and then "/d" for every level. *)
Definition below (ds : list string) : string :=
  concat_strings (map (fun d => "/" +:+ d) ds).

Definition root_of (ds : list string) : string := "." +:+ below ds.

(** *** Two listings of one tree

    [os.scandir] hands out the entries of a directory in an order of
    its own.  Two trees are the same tree when, in every directory, the
    entries of one are the entries of the other in some order. *)

Inductive same_tree : entry -> entry -> Prop :=
| same_file (name : string) : same_tree (File name) (File name)
| same_dir (name : string) (es1 es1' es2 : list entry) :
    Permutation es1 es1' ->
    Forall2 same_tree es1' es2 ->
    same_tree (Dir name es1) (Dir name es2).

(** ** Sample repositories *)

(** A repository without commits and without README, holding one file. *)
Definition bare_world : world :=
  {| isdir_git := true;
     exists_gitignore := true;
     exists_readme := false;
     gitignore_patterns := [];
     git_commits := [];
     top_entries := [Dir ".git" [File "HEAD"]; File ".gitignore"; File "a.txt"];
     open_read := fun _ => inl "X" |}.

(** A repository in which "b.txt" cannot be read. *)
Definition locked_world : world :=
  {| isdir_git := true;
     exists_gitignore := true;
     exists_readme := false;
     gitignore_patterns := [];
     git_commits := ["init"];
     top_entries := [File "c.txt"; File "b.txt"; File "a.txt"];
     open_read := fun p => if String.eqb p "b.txt"
                           then inr "[Errno 13] Permission denied: 'b.txt'"
                           else inl p |}.

(** The world of a run: the output file is there while the walk runs. *)
Definition running_world : world :=
  {| isdir_git := true;
     exists_gitignore := true;
     exists_readme := true;
     gitignore_patterns := ["*.log"];
     git_commits := ["fix bug"; "add feature"];
     top_entries := [Dir ".git" [File "HEAD"]; File ".gitignore";
                     File "repoed.md"; File "README.md"; File "a.txt";
                     File "build.log"];
     open_read := fun p => if String.eqb p "README.md" then inl "Hello" else inl "X" |}.

(** A repository with a nested repository inside. *)
Definition nested_listing : list entry :=
  [Dir ".git" [File "HEAD"; Dir "objects" [File "pack"]];
   File "a.txt";
   Dir "src" [File "main.py"; Dir ".git" [File "config"]; Dir "lib" [File "util.py"]]].

(** One tree, listed in two orders. *)
Definition listing_one : list entry :=
  [File "b.txt"; File "a.txt"; Dir "src" [File "z.py"; File "a.py"]].

Definition listing_two : list entry :=
  [File "a.txt"; File "b.txt"; Dir "src" [File "a.py"; File "z.py"]].

(** The same run over other entries of the top directory. *)
Definition with_top_entries (w : world) (entries : list entry) : world :=
  {| isdir_git := isdir_git w;
     exists_gitignore := exists_gitignore w;
     exists_readme := exists_readme w;
     gitignore_patterns := gitignore_patterns w;
     git_commits := git_commits w;
     top_entries := entries;
     open_read := open_read w |}.

(** *** The files of a tree, by their names

    The files below a directory, each given by the names that lead to
    it from the directory, in the order: the files of the directory,
    then the sub-directories one after the other.  Directories named
    ".git" are left out. *)
Fixpoint files_under (dir : entry) : list (list string) :=
  match dir with
  | File _ => []
  | Dir _ entries =>
      map (fun file => [file]) (file_names entries)
      ++ flat_map
           (fun e =>
              match e with
              | File _ => []
              | Dir name _ =>
                  if String.eqb name ".git" then []
                  else map (cons name) (files_under e)
              end) entries
  end.

(** The names [names] lead from the entries [entries] to a file. *)
Inductive reaches : list entry -> list string -> Prop :=
| reaches_file (entries : list entry) (file : string) :
    In (File file) entries -> reaches entries [file]
| reaches_dir (entries children : list entry) (name : string) (names : list string) :
    In (Dir name children) entries ->
    reaches children names ->
    reaches entries (name :: names).

(** The part of [files_under] that one entry of the directory gives. *)
Definition sub_files (e : entry) : list (list string) :=
  match e with
  | File _ => []
  | Dir name _ =>
      if String.eqb name ".git" then [] else map (cons name) (files_under e)
  end.

(** ** [read_gitignore] and [get_git_commits]

    Text as Python hands it over, for characters below 256. *)

Module PyText.

(** [c.isspace()] *)
Definition isspace (c : ascii) : bool :=
  let n := nat_of_ascii c in
  ((9 <=? n)%nat && (n <=? 13)%nat)
  || ((28 <=? n)%nat && (n <=? 31)%nat)
  || (n =? 32)%nat || (n =? 133)%nat || (n =? 160)%nat.

(** The characters at which [str.splitlines] ends a line. *)
Definition islinebreak (c : ascii) : bool :=
  let n := nat_of_ascii c in
  ((10 <=? n)%nat && (n <=? 13)%nat)
  || ((28 <=? n)%nat && (n <=? 30)%nat)
  || (n =? 133)%nat.

(** [s.lstrip()] *)
Fixpoint lstrip (s : string) : string :=
  match s with
  | EmptyString => EmptyString
  | String c s' => if isspace c then lstrip s' else s
  end.

(** [s.rstrip()] *)
Fixpoint rstrip (s : string) : string :=
  match s with
  | EmptyString => EmptyString
  | String c s' =>
      match rstrip s' with
      | EmptyString => if isspace c then EmptyString else String c EmptyString
      | r => String c r
      end
  end.

(** [s.strip()] *)
Definition strip (s : string) : string := lstrip (rstrip s).

(** [s.splitlines()]: a line ends at a line break, "\r\n" counting as
    one; the breaks are dropped and no empty line follows the last
    break. *)
Fixpoint splitlines (s : string) : list string :=
  match s with
  | EmptyString => []
  | String c s' =>
      if Ascii.eqb c "013"%char then
        match s' with
        | String d s'' =>
            if Ascii.eqb d "010"%char then EmptyString :: splitlines s''
            else EmptyString :: splitlines s'
        | EmptyString => [EmptyString]
        end
      else if islinebreak c then EmptyString :: splitlines s'
      else match splitlines s' with
           | [] => [String c EmptyString]
           | first :: others => String c first :: others
           end
  end.

(** What a file opened in text mode delivers: "\r\n" and "\r" become
    "\n". *)
Fixpoint universal_newlines (s : string) : string :=
  match s with
  | EmptyString => EmptyString
  | String c s' =>
      if Ascii.eqb c "013"%char then
        match s' with
        | String d s'' =>
            if Ascii.eqb d "010"%char
            then String "010"%char (universal_newlines s'')
            else String "010"%char (universal_newlines s')
        | EmptyString => String "010"%char EmptyString
        end
      else String c (universal_newlines s')
  end.

(** [for line in f]: the lines of the text, each with its "\n" but
    possibly the last. *)
Fixpoint lines_of (s : string) : list string :=
  match s with
  | EmptyString => []
  | String c s' =>
      if Ascii.eqb c "010"%char then String c EmptyString :: lines_of s'
      else match lines_of s' with
           | [] => [String c EmptyString]
           | first :: others => String c first :: others
           end
  end.

End PyText.

(** The body of the loop of [read_gitignore]. *)
Definition read_gitignore_line (patterns : list string) (line : string) : list string :=
  let line := PyText.strip line in
  if negb (String.eqb line "") && negb (Py.startswith line "#")
  then patterns ++ [line]
  else patterns.

(** [read_gitignore].  [gitignore_file] is [None] when ".gitignore" does
    not exist, and otherwise the text of the file or the exception that
    opening or reading it raises; the function has no handler. *)
Definition read_gitignore (gitignore_file : option (string + string))
  : result (list string) :=
  match gitignore_file with
  | None => Return []
  | Some (inr e) => Raised e
  | Some (inl text) =>
      Return (fold_left read_gitignore_line
                (PyText.lines_of (PyText.universal_newlines text)) [])
  end.

(** What [subprocess.run(..., check=True)] does: it completes with the
    captured output, raises [CalledProcessError] on a non-zero exit
    status, or raises something else (the program is not there). *)
Inductive run_outcome : Type :=
| Completed (stdout : string)
| CalledProcessError
| OtherError (e : string).

(** [get_git_commits]: only [CalledProcessError] is handled. *)
Definition get_git_commits (git_log : run_outcome) : result (list string) :=
  match git_log with
  | Completed stdout => Return (PyText.splitlines (PyText.strip stdout))
  | CalledProcessError => Return []
  | OtherError e => Raised e
  end.

(** The output of [git log --pretty=%s]: every subject followed by a
    newline. *)
Definition git_log_output (subjects : list string) : string :=
  concat_strings (map (fun subject => subject +:+ nl) subjects).

(** The lines of a text file as the loop of [read_gitignore] gets them. *)
Definition text_lines (text : string) : list string :=
  PyText.lines_of (PyText.universal_newlines text).

(** Some character of the text ends a line for [str.splitlines]. *)
Fixpoint has_linebreak (s : string) : bool :=
  match s with
  | EmptyString => false
  | String c s' => PyText.islinebreak c || has_linebreak s'
  end.

(** ** The run from the files

    [main] from its first line: the two checks, then [read_gitignore]
    and [get_git_commits], whose exceptions nothing handles, then the
    opening of the output file and the writing of the document, which
    nothing guards either. *)

Record files : Type := {
  f_isdir_git : bool;                          (* os.path.isdir(".git") *)
  f_gitignore : option (string + string);      (* ".gitignore": absent, its
                                                  text, or the exception of
                                                  opening or reading it *)
  f_git_log : run_outcome;                     (* the run of git log *)
  f_output_error : option string;              (* the exception, if any, that
                                                  open("repoed.md", "w") or the
                                                  first failing outfile.write
                                                  raises *)
  f_exists_readme : bool;
  f_top_entries : list entry;
  f_open_read : string -> string + string
}.




(** A README, an ignore file and an old output inside a directory. *)
Definition docs_world : world :=
  {| isdir_git := true;
     exists_gitignore := true;
     exists_readme := true;
     gitignore_patterns := [];
     git_commits := [];
     top_entries := [File "README.md"; File ".gitignore"; File "repoed.md";
                     Dir "docs" [File "README.md"; File ".gitignore";
                                 File "repoed.md"]];
     open_read := fun _ => inl "X" |}.

(** ** Shell-style patterns, as the specification words them

    A pattern is a sequence of pieces: an ordinary character, a star
    that stands for any run of characters (separators included), a
    question mark that stands for one character, and a bracket
    expression that stands for one character of a class, or with "!"
    for one character outside it.  [matches] is what section 4.1 of the
    specification says of each piece; [Fnmatch.fnmatch] above is what
    the program calls. *)

Module Glob.

Inductive member : Type :=
| One (c : ascii)
| Between (lo hi : ascii).

Inductive piece : Type :=
| Char (c : ascii)
| AnyRun
| AnyOne
| OneOf (members : list member)
| NoneOf (members : list member).

(** The text of a pattern. *)
Definition member_text (m : member) : list ascii :=
  match m with
  | One c => [c]
  | Between lo hi => [lo; "-"%char; hi]
  end.

Definition members_text (ms : list member) : list ascii := flat_map member_text ms.

Definition piece_text (p : piece) : list ascii :=
  match p with
  | Char c => [c]
  | AnyRun => ["*"%char]
  | AnyOne => ["?"%char]
  | OneOf ms => "["%char :: members_text ms ++ ["]"%char]
  | NoneOf ms => "["%char :: "!"%char :: members_text ms ++ ["]"%char]
  end.

Definition text (pieces : list piece) : string :=
  string_of_list_ascii (flat_map piece_text pieces).

(** What is written without ambiguity: an ordinary character is none of
    "*", "?", "["; the characters of a class are neither "]" nor "-", a
    range is not empty, a class has a member, and a class that is not
    negated does not start with "!". *)
Definition ordinary (c : ascii) : bool :=
  negb (Ascii.eqb c "*") && negb (Ascii.eqb c "?") && negb (Ascii.eqb c "[").

Definition plain (c : ascii) : bool :=
  negb (Ascii.eqb c "]") && negb (Ascii.eqb c "-").

Definition well_formed_member (m : member) : bool :=
  match m with
  | One c => plain c
  | Between lo hi => plain lo && plain hi && Ascii.leb lo hi
  end.

Definition well_formed (p : piece) : bool :=
  match p with
  | Char c => ordinary c
  | AnyRun | AnyOne => true
  | OneOf ms =>
      forallb well_formed_member ms
      && match members_text ms with
         | [] => false
         | c :: _ => negb (Ascii.eqb c "!")
         end
  | NoneOf ms =>
      forallb well_formed_member ms
      && match ms with [] => false | _ :: _ => true end
  end.



End Glob.



(** * Properties *)

(** ** Strings *)

Section StringFacts.

Local Arguments String.append : simpl nomatch.

Lemma string_app_assoc (a b c : string) : (a +:+ b) +:+ c = a +:+ b +:+ c.
Proof. induction a as [|x a IH]; simpl; [reflexivity | now rewrite IH]. Qed.

Lemma string_app_nil_r (a : string) : a +:+ "" = a.
Proof. induction a as [|x a IH]; simpl; [reflexivity | now rewrite IH]. Qed.

Lemma startswith_iff (s p : string) :
  Py.startswith s p = true <-> exists r, s = p +:+ r.
Proof.
  unfold Py.startswith. revert s.
  induction p as [|c p IH]; intros s; simpl.
  - split; [intros _; exists s; reflexivity | intros _; now destruct s].
  - destruct s as [|d s]; simpl.
    + split; [discriminate | intros [r Hr]; discriminate].
    + destruct (ascii_dec c d) as [->|Hcd].
      * rewrite IH. split; intros [r Hr]; exists r.
        -- now rewrite Hr.
        -- now injection Hr.
      * split; [discriminate | intros [r Hr]; injection Hr; congruence].
Qed.

Lemma equal_or_inside_iff (file_path text : string) :
  equal_or_inside file_path text = true
  <-> file_path = text \/ exists rest, file_path = text +:+ "/" +:+ rest.
Proof.
  unfold equal_or_inside, os_sep.
  rewrite orb_true_iff, String.eqb_eq, startswith_iff.
  split; (intros [H|[r Hr]]; [now left | right; exists r]).
  - now rewrite Hr, string_app_assoc.
  - now rewrite Hr, string_app_assoc.
Qed.

Lemma has_wildcard_cons (c : ascii) (p : string) :
  has_wildcard (String c p) = false ->
  (c <> "*" /\ c <> "?" /\ c <> "[")%char /\ has_wildcard p = false.
Proof.
  unfold has_wildcard. cbn [existsb Py.contains].
  rewrite !orb_false_iff, !Ascii.eqb_neq.
  intros ((H1 & H1') & (H2 & H2') & (H3 & H3') & _).
  rewrite H1', H2', H3'. repeat split; congruence.
Qed.

End StringFacts.

(** ** The glob matcher on patterns without wildcard characters *)

Section FnmatchFacts.

Import Fnmatch.

Lemma translate_literal (p : string) :
  has_wildcard p = false ->
  translate (list_ascii_of_string p) = map Lit (list_ascii_of_string p).
Proof.
  unfold translate. induction p as [|c p IH]; [reflexivity|].
  intros H. apply has_wildcard_cons in H as [(H1 & H2 & H3) Hp].
  apply Ascii.eqb_neq in H1, H2, H3.
  cbn [list_ascii_of_string translate_from map].
  rewrite H1, H2, H3. now rewrite IH.
Qed.

Lemma re_match_literal (l name : list ascii) :
  re_match (map Lit l) name = true <-> name = l.
Proof.
  revert name. induction l as [|c l IH]; intros [|d name];
    cbn [map re_match item_accepts];
    try (split; [discriminate | congruence]); try tauto.
  rewrite andb_true_iff, IH, Ascii.eqb_eq.
  split; [intros [-> ->]; reflexivity | intros [= -> ->]; tauto].
Qed.

Lemma fnmatch_literal (name p : string) :
  has_wildcard p = false ->
  fnmatch name p = true <-> name = p.
Proof.
  intros H. unfold fnmatch, fnmatchcase.
  rewrite translate_literal, re_match_literal by assumption.
  split; [|now intros ->].
  intros E. rewrite <- (string_of_list_ascii_of_string name), E.
  apply string_of_list_ascii_of_string.
Qed.

(** A lone star accepts every name, separators included. *)
Lemma fnmatch_star (name : string) : fnmatch name "*" = true.
Proof.
  unfold fnmatch, fnmatchcase. simpl.
  induction (list_ascii_of_string name) as [|c l IH]; simpl; [reflexivity|].
  exact IH.
Qed.

Lemma re_match_star_nil (res : list re_item) :
  re_match (Star :: res) [] = re_match res [] || false.
Proof. reflexivity. Qed.

Lemma re_match_star_cons (res : list re_item) (c : ascii) (name : list ascii) :
  re_match (Star :: res) (c :: name) =
    re_match res (c :: name) || re_match (Star :: res) name.
Proof. reflexivity. Qed.


Lemma list_ascii_of_string_app (a b : string) :
  list_ascii_of_string (a +:+ b) = list_ascii_of_string a ++ list_ascii_of_string b.
Proof.
  induction a as [|c a IH]; [reflexivity|].
  change (String c a +:+ b) with (String c (a +:+ b)).
  cbn [list_ascii_of_string app]. now rewrite IH.
Qed.


End FnmatchFacts.

(** ** The loop of [is_ignored] *)

Section IsIgnoredFacts.

Ltac case_conditions :=
  repeat match goal with
    | |- context [if ?b then _ else _] => destruct b eqn:?; cbn [negb andb orb Bool.eqb]
    | |- context [?a || ?b] => destruct a eqn:?; cbn [negb andb orb Bool.eqb]
    | |- context [?a && ?b] => destruct a eqn:?; cbn [negb andb orb Bool.eqb]
    end.

Ltac case_strip :=
  match goal with
  | |- context [Py.startswith ?p "/"] => destruct (Py.startswith p "/")
  end.

(** When a line matches, by the branch of the body it takes. *)
Lemma pattern_matches_eq (file_path line : string) :
  pattern_matches file_path line =
    if directory_only line
    then equal_or_inside file_path (directory_text line)
    else negb (has_wildcard (pattern_text line))
           && equal_or_inside file_path (pattern_text line)
         || Fnmatch.fnmatch file_path (pattern_text line)
         || Fnmatch.fnmatch (Py.basename file_path) (pattern_text line).
Proof.
  unfold pattern_matches, is_ignored_body, directory_only, directory_text,
    pattern_text, equal_or_inside.
  destruct (Py.startswith line "!"); cbv zeta beta iota;
    case_strip; case_conditions; reflexivity.
Qed.

(** The body overwrites the flag with [not negative] on a match and
    leaves it alone otherwise. *)
Lemma is_ignored_body_spec (file_path : string) (ignore : bool) (line : string) :
  is_ignored_body file_path ignore line =
    if pattern_matches file_path line then negb (negated line) else ignore.
Proof.
  unfold pattern_matches, negated, is_ignored_body.
  destruct (Py.startswith line "!"); cbv zeta beta iota;
    case_strip; destruct ignore; case_conditions; reflexivity.
Qed.

Lemma fold_left_last_match {A B : Type} (m : A -> bool) (v : A -> B) (l : list A) (init : B) :
  fold_left (fun acc x => if m x then v x else acc) l init =
    match find m (rev l) with
    | Some x => v x
    | None => init
    end.
Proof.
  induction l as [|x l IH] using rev_ind; [reflexivity|].
  rewrite fold_left_app, rev_app_distr. cbn [fold_left rev app find].
  destruct (m x); [reflexivity | exact IH].
Qed.

Lemma is_ignored_fold (file_path : string) (ignore_patterns : list string) :
  is_ignored file_path ignore_patterns =
    fold_left (fun ignore line =>
                 if pattern_matches file_path line then negb (negated line) else ignore)
      ignore_patterns false.
Proof.
  unfold is_ignored. generalize false.
  induction ignore_patterns as [|line l IH]; intros b; [reflexivity|].
  cbn [fold_left]. now rewrite IH, is_ignored_body_spec.
Qed.

End IsIgnoredFacts.

(** C1. [is_ignored] runs over the lines in file order; a matching line
    overwrites the running flag with the negation of its negated flag
    and any other line leaves it alone, so the last matching line
    decides.  With the lines "*.log" and "!keep.log", "keep.log" is not
    ignored and "build.log" is. *)
Theorem is_ignored_last_match_wins :
  (forall file_path ignore_patterns,
      is_ignored file_path ignore_patterns =
        fold_left (fun ignore line =>
                     if pattern_matches file_path line then negb (negated line) else ignore)
          ignore_patterns false)
  /\ (forall file_path ignore_patterns line,
         is_ignored file_path (ignore_patterns ++ [line]) =
           if pattern_matches file_path line then negb (negated line)
           else is_ignored file_path ignore_patterns)
  /\ (forall file_path ignore_patterns,
         is_ignored file_path ignore_patterns =
           match find (pattern_matches file_path) (rev ignore_patterns) with
           | Some line => negb (negated line)
           | None => false
           end)
  /\ is_ignored "keep.log" ["*.log"; "!keep.log"] = false
  /\ is_ignored "build.log" ["*.log"; "!keep.log"] = true.
Proof.
  split; [exact is_ignored_fold|].
  split.
  { intros f l line. unfold is_ignored at 1.
    rewrite fold_left_app. cbn [fold_left].
    now rewrite is_ignored_body_spec. }
  split.
  { intros f l. rewrite is_ignored_fold. apply fold_left_last_match. }
  split; vm_compute; reflexivity.
Qed.

(** C2, as the program has it.  A line without a trailing "/" and
    without wildcard characters matches a path exactly when the path is
    the pattern text, or starts with the pattern text followed by the
    separator, or has the pattern text as its final segment: a literal
    pattern that fails the first two tests still goes through the glob
    fallback, which on a text without wildcards is string equality with
    the full path or with the basename. *)
Theorem literal_pattern_matches (file_path line : string) :
  directory_only line = false ->
  has_wildcard (pattern_text line) = false ->
  pattern_matches file_path line = true
  <-> file_path = pattern_text line
      \/ (exists rest, file_path = pattern_text line +:+ "/" +:+ rest)
      \/ Py.basename file_path = pattern_text line.
Proof.
  intros Hd Hw. rewrite pattern_matches_eq, Hd, Hw. cbn [negb andb].
  rewrite !orb_true_iff, equal_or_inside_iff, !fnmatch_literal by assumption.
  tauto.
Qed.

Lemma literal_pattern_matches_witness :
  pattern_matches "vendor" "vendor" = true
  /\ pattern_matches "vendor/lib.go" "vendor" = true
  /\ pattern_matches "src/vendor" "vendor" = true
  /\ pattern_matches "vendored.go" "vendor" <> true.
Proof.
  split; [|split; [|split]].
  - apply (literal_pattern_matches "vendor" "vendor"); [reflexivity..|].
    left; reflexivity.
  - apply (literal_pattern_matches "vendor/lib.go" "vendor"); [reflexivity..|].
    right; left; exists "lib.go"; reflexivity.
  - apply (literal_pattern_matches "src/vendor" "vendor"); [reflexivity..|].
    right; right; reflexivity.
  - intros H.
    apply (literal_pattern_matches "vendored.go" "vendor") in H; [|reflexivity..].
    destruct H as [H|[[rest H]|H]]; discriminate H.
Defined.

(** The statement of C2 without the third case fails: the line "vendor"
    matches "src/vendor", which is neither "vendor" nor inside it. *)
Lemma literal_pattern_deeper_file :
  directory_only "vendor" = false
  /\ has_wildcard (pattern_text "vendor") = false
  /\ pattern_matches "src/vendor" "vendor" = true
  /\ is_ignored "src/vendor" ["vendor"] = true
  /\ ~ ("src/vendor" = pattern_text "vendor"
        \/ exists rest, "src/vendor" = pattern_text "vendor" +:+ "/" +:+ rest).
Proof.
  repeat split; try (vm_compute; reflexivity).
  intros [H|[rest H]]; discriminate H.
Qed.

(** ** The glob matcher against the shell-style patterns *)

Section GlobFacts.

Import Fnmatch.









End GlobFacts.

Section ClassFacts.

Import Fnmatch.

















End ClassFacts.

Section GlobMatchFacts.

Import Fnmatch.






End GlobMatchFacts.



(** C4. A line written with a trailing "/" matches a path exactly when
    the path is the text without its trailing separators, or starts
    with that text followed by the separator. *)
Theorem directory_pattern_matches (file_path line : string) :
  directory_only line = true ->
  pattern_matches file_path line = true
  <-> file_path = directory_text line
      \/ exists rest, file_path = directory_text line +:+ "/" +:+ rest.
Proof.
  intros Hd. rewrite pattern_matches_eq, Hd. apply equal_or_inside_iff.
Qed.

Lemma directory_pattern_matches_witness :
  directory_text "dist/" = "dist"
  /\ is_ignored "dist" ["dist/"] = true
  /\ is_ignored "dist/app.js" ["dist/"] = true
  /\ is_ignored "mydist/app.js" ["dist/"] = false
  /\ pattern_matches "dist" "dist/" = true
  /\ pattern_matches "dist/app.js" "dist/" = true
  /\ pattern_matches "mydist/app.js" "dist/" <> true.
Proof.
  do 4 (split; [reflexivity|]).
  split; [|split].
  - apply (directory_pattern_matches "dist" "dist/"); [reflexivity|].
    left; reflexivity.
  - apply (directory_pattern_matches "dist/app.js" "dist/"); [reflexivity|].
    right; exists "app.js"; reflexivity.
  - intros H.
    apply (directory_pattern_matches "mydist/app.js" "dist/") in H; [|reflexivity].
    destruct H as [H|[rest H]]; discriminate H.
Defined.

(** ** Document assembly *)

Section AssemblyFacts.

Local Arguments String.append : simpl nomatch.

Lemma concat_strings_app (l1 l2 : list string) :
  concat_strings (l1 ++ l2) = concat_strings l1 +:+ concat_strings l2.
Proof.
  induction l1 as [|x l1 IH]; [reflexivity|].
  cbn [app concat_strings fold_right]. fold (concat_strings (l1 ++ l2)).
  fold (concat_strings l1). now rewrite IH, string_app_assoc.
Qed.

(** The reader hands back a string whatever [open] and [read] do. *)
Lemma read_file_content_returns (w : world) (file_path : string) :
  read_file_content w file_path = Return (file_text w file_path).
Proof.
  unfold read_file_content, open_and_read, file_text, try_except.
  now destruct (open_read w file_path).
Qed.

Lemma fold_left_write {A : Type} (g : A -> string) (items : list A) (outfile : string) :
  fold_left (fun outfile x => write outfile (g x)) items outfile =
    outfile +:+ concat_strings (map g items).
Proof.
  revert outfile. induction items as [|x items IH]; intros outfile.
  - cbn. now rewrite string_app_nil_r.
  - cbn [fold_left map concat_strings fold_right]. rewrite IH.
    unfold write. now rewrite string_app_assoc.
Qed.

Lemma for_each_write {A : Type} (g : A -> string)
    (body : string -> A -> result string) (items : list A) (outfile : string) :
  (forall outfile x, body outfile x = Return (outfile +:+ g x)) ->
  for_each items body outfile = Return (outfile +:+ concat_strings (map g items)).
Proof.
  intros Hbody. revert outfile.
  induction items as [|x items IH]; intros outfile.
  - cbn. now rewrite string_app_nil_r.
  - cbn [for_each map concat_strings fold_right]. rewrite Hbody.
    cbn [bind]. rewrite IH. now rewrite string_app_assoc.
Qed.

(** Inside a repository with an ignore file, [main] writes the
    three parts of the document one after the other and returns. *)
Lemma main_document (w : world) :
  isdir_git w = true ->
  exists_gitignore w = true ->
  main w =
    Return (commits_section (git_commits w)
            +:+ readme_section (readme_lookup w)
            +:+ concat_strings
                  (map (fun file => file_section file (file_text w file))
                     (main_source_files w))).
Proof.
  intros Hgit Hign. unfold main. rewrite Hgit, Hign. cbn [negb].
  cbv zeta. unfold readme_lookup.
  assert (Hbody : forall outfile file,
             (content <- read_file_content w file ;;
              Return
                (write
                   (write
                      (write
                         (write (write outfile ("### " +:+ file +:+ nl))
                            (nl +:+ "```" +:+ nl))
                         (content +:+ nl))
                      ("```" +:+ nl))
                   ("---" +:+ nl +:+ nl)))%py
             = Return (outfile +:+ file_section file (file_text w file))).
  { intros outfile file. rewrite read_file_content_returns. cbn [bind].
    unfold write, file_section, fenced, delimiter.
    now rewrite !string_app_assoc. }
  destruct (exists_readme w && negb (is_ignored readme_path (gitignore_patterns w)));
    [rewrite read_file_content_returns|]; cbn [bind];
    rewrite (for_each_write _ _ _ _ Hbody);
    (destruct (git_commits w) as [|commit commits];
     [|rewrite fold_left_write]);
    unfold write, commits_section, readme_section, fenced, bullet, delimiter;
    change ("" +:+ ?x) with x; now rewrite ?string_app_assoc.
Qed.

End AssemblyFacts.

(** C6. Inside a repository with an ignore file, the document is the
    commits section, the README section and one section per rendered
    file, in this order.  With no revision message the commits section
    is the header, the single bullet "- Not committed yet" and one blank
    line.  When README.md is absent or ignored its section is the
    header and the single bullet "- Does not exist".  The README section
    and every file section end with the "---" line and one blank line,
    written once. *)
Theorem placeholder_sections (w : world) :
  isdir_git w = true ->
  exists_gitignore w = true ->
  main w =
    Return (commits_section (git_commits w)
            +:+ readme_section (readme_lookup w)
            +:+ concat_strings
                  (map (fun file => file_section file (file_text w file))
                     (main_source_files w)))
  /\ (git_commits w = [] ->
      commits_section (git_commits w) =
        "### Last Commits" +:+ nl +:+ "- Not committed yet" +:+ nl +:+ nl)
  /\ (exists_readme w = false \/ is_ignored "README.md" (gitignore_patterns w) = true ->
      readme_section (readme_lookup w) =
        "### README.md" +:+ nl +:+ nl +:+ "- Does not exist" +:+ nl
        +:+ "---" +:+ nl +:+ nl)
  /\ (forall text,
         readme_lookup w = Some text ->
         readme_section (readme_lookup w) =
           "### README.md" +:+ nl +:+ nl +:+ "```" +:+ nl +:+ text +:+ nl
           +:+ "```" +:+ nl +:+ "---" +:+ nl +:+ nl)
  /\ (forall file text,
         file_section file text =
           "### " +:+ file +:+ nl +:+ nl +:+ "```" +:+ nl +:+ text +:+ nl
           +:+ "```" +:+ nl +:+ "---" +:+ nl +:+ nl).
Proof.
  intros Hgit Hign. split; [now apply main_document|].
  split; [intros ->; reflexivity|].
  split.
  { intros Habsent. unfold readme_lookup, readme_path.
    replace (exists_readme w && negb (is_ignored "README.md" (gitignore_patterns w)))
      with false; [reflexivity|].
    destruct Habsent as [-> | ->]; [reflexivity | now rewrite andb_false_r]. }
  split.
  { intros text ->. unfold readme_section, fenced, delimiter.
    now rewrite !string_app_assoc. }
  intros file text. unfold file_section, fenced, delimiter.
  now rewrite !string_app_assoc.
Qed.

Lemma placeholder_sections_witness :
  main bare_world =
    Return ("### Last Commits" +:+ nl +:+ "- Not committed yet" +:+ nl +:+ nl
            +:+ "### README.md" +:+ nl +:+ nl +:+ "- Does not exist" +:+ nl
            +:+ "---" +:+ nl +:+ nl
            +:+ "### a.txt" +:+ nl +:+ nl +:+ "```" +:+ nl +:+ "X" +:+ nl
            +:+ "```" +:+ nl +:+ "---" +:+ nl +:+ nl).
Proof.
  destruct (placeholder_sections bare_world) as [Hmain _]; [reflexivity..|].
  rewrite Hmain. vm_compute. reflexivity.
Defined.

(** C8. The file reader returns a string whatever happens: the content,
    or the note "Error reading file: ..." with the text of the
    exception.  Inside a repository with an ignore file [main] returns
    the whole document, with one section per rendered file in the order
    of the list; the section of a file whose read fails carries the note
    in place of the content. *)
Theorem unreadable_file_keeps_section (w : world) :
  isdir_git w = true ->
  exists_gitignore w = true ->
  (forall file_path, exists text, read_file_content w file_path = Return text)
  /\ (forall file_path e,
         open_read w file_path = inr e ->
         read_file_content w file_path = Return ("Error reading file: " +:+ e))
  /\ main w =
       Return (commits_section (git_commits w)
               +:+ readme_section (readme_lookup w)
               +:+ concat_strings
                     (map (fun file => file_section file (file_text w file))
                        (main_source_files w)))
  /\ (forall file e,
         open_read w file = inr e ->
         file_section file (file_text w file) =
           "### " +:+ file +:+ nl +:+ nl +:+ "```" +:+ nl
           +:+ "Error reading file: " +:+ e +:+ nl
           +:+ "```" +:+ nl +:+ "---" +:+ nl +:+ nl).
Proof.
  intros Hgit Hign.
  split; [intros p; eexists; apply read_file_content_returns|].
  split.
  { intros p e He. rewrite read_file_content_returns.
    unfold file_text. now rewrite He. }
  split; [now apply main_document|].
  intros file e He. unfold file_section, file_text, fenced, delimiter.
  rewrite He. now rewrite !string_app_assoc.
Qed.

Lemma unreadable_file_keeps_section_witness :
  main locked_world =
    Return ("### Last Commits" +:+ nl +:+ "- init" +:+ nl +:+ nl
            +:+ "### README.md" +:+ nl +:+ nl +:+ "- Does not exist" +:+ nl
            +:+ "---" +:+ nl +:+ nl
            +:+ "### a.txt" +:+ nl +:+ nl +:+ "```" +:+ nl +:+ "a.txt" +:+ nl
            +:+ "```" +:+ nl +:+ "---" +:+ nl +:+ nl
            +:+ "### b.txt" +:+ nl +:+ nl +:+ "```" +:+ nl
            +:+ "Error reading file: [Errno 13] Permission denied: 'b.txt'" +:+ nl
            +:+ "```" +:+ nl +:+ "---" +:+ nl +:+ nl
            +:+ "### c.txt" +:+ nl +:+ nl +:+ "```" +:+ nl +:+ "c.txt" +:+ nl
            +:+ "```" +:+ nl +:+ "---" +:+ nl +:+ nl).
Proof.
  destruct (unreadable_file_keeps_section locked_world) as (_ & _ & Hmain & _);
    [reflexivity..|].
  rewrite Hmain. vm_compute. reflexivity.
Defined.

(** ** File discovery *)

Section DiscoveryFacts.

Variables (ignore_patterns : list string) (exclude_files : gset string).

Lemma os_walk_dir (top name : string) (entries : list entry) :
  os_walk top (Dir name entries) =
    (top, list_remove ".git" (dir_names entries), file_names entries)
    :: descend top entries false.
Proof.
  cbn [os_walk]. f_equal.
  match goal with
  | |- ?loop entries false = _ =>
      enough (H : forall removed, loop entries removed = descend top entries removed)
      by apply H
  end.
  induction entries as [|[file|sub children] es IH]; intros removed.
  - reflexivity.
  - cbn [descend]. apply IH.
  - cbn [descend]. rewrite <- !IH. reflexivity.
Qed.

Lemma gather_files_filter (root : string) (files source_files : list string) :
  fold_left (gather_file ignore_patterns exclude_files root) files source_files =
    source_files
    ++ List.filter (kept ignore_patterns exclude_files) (map (rel_path root) files).
Proof.
  revert source_files. induction files as [|file files IH]; intros acc.
  - cbn. now rewrite app_nil_r.
  - cbn [fold_left map List.filter]. rewrite IH.
    unfold gather_file, kept. fold (rel_path root file).
    destruct (bool_decide (rel_path root file ∈ exclude_files)); cbn [negb andb];
      [reflexivity|].
    destruct (is_ignored (rel_path root file) ignore_patterns); cbn [negb];
      [reflexivity|].
    now rewrite <- app_assoc.
Qed.

(** The result of [gather_source_files]: the paths of the walk that
    pass both tests, in the order of the walk. *)
Lemma gather_source_files_filter (entries : list entry) :
  gather_source_files entries ignore_patterns exclude_files =
    List.filter (kept ignore_patterns exclude_files) (candidates entries).
Proof.
  unfold gather_source_files, candidates, paths_of.
  rewrite <- (app_nil_l (List.filter _ _)). generalize (@nil string).
  induction (os_walk "." (Dir "." entries)) as [|[[root dirs] files] triples IH];
    intros acc.
  - cbn. now rewrite app_nil_r.
  - cbn [fold_left flat_map]. rewrite IH, gather_files_filter.
    now rewrite List.filter_app, app_assoc.
Qed.

Lemma gather_source_files_In (entries : list entry) (path : string) :
  In path (gather_source_files entries ignore_patterns exclude_files)
  <-> In path (candidates entries)
      /\ (path ∉ exclude_files)
      /\ is_ignored path ignore_patterns = false.
Proof.
  rewrite gather_source_files_filter, List.filter_In. unfold kept.
  rewrite andb_true_iff, !negb_true_iff, bool_decide_eq_false.
  tauto.
Qed.

Lemma sort_In (l : list string) (path : string) : In path (sort l) <-> In path l.
Proof.
  unfold sort. rewrite <- !list_elem_of_In.
  now rewrite (merge_sort_Permutation String.le l).
Qed.

(** The files of the top directory are looked at under their own
    names. *)
Lemma top_file_candidate (entries : list entry) (name : string) :
  In (File name) entries -> In (rel_path "." name) (candidates entries).
Proof.
  intros Hin. unfold candidates, paths_of. rewrite os_walk_dir. cbn [flat_map].
  apply in_or_app. left. apply in_map.
  unfold file_names. apply in_flat_map. exists (File name).
  split; [assumption | now left].
Qed.

End DiscoveryFacts.

(** C7. A path of the exclusion set is never among the gathered files,
    whatever the ignore patterns are: the body of the loop looks the
    path up in the set, by equality of strings, before it asks
    [is_ignored].  So README.md and .gitignore are never among the
    files [main] renders. *)
Theorem exclusion_wins (entries : list entry) (ignore_patterns : list string)
    (exclude_files : gset string) (path : string) :
  path ∈ exclude_files ->
  ~ In path (gather_source_files entries ignore_patterns exclude_files)
  /\ (forall root source_files file,
         rel_path root file = path ->
         gather_file ignore_patterns exclude_files root source_files file = source_files)
  /\ (forall w, ~ In "README.md" (main_source_files w)
                /\ ~ In ".gitignore" (main_source_files w)).
Proof.
  intros Hex. split; [|split].
  - rewrite gather_source_files_In. tauto.
  - intros root acc file <-. unfold gather_file. fold (rel_path root file).
    now rewrite bool_decide_eq_true_2.
  - intros w. unfold main_source_files.
    rewrite !sort_In, !gather_source_files_In.
    split; intros (_ & Hnot & _); apply Hnot; vm_compute; reflexivity.
Qed.

Lemma exclusion_wins_witness :
  ~ In "README.md"
      (gather_source_files [File "README.md"; File "a.txt"] [] main_exclude_files)
  /\ gather_source_files [File "README.md"; File "a.txt"] [] main_exclude_files
     = ["a.txt"]
  /\ gather_source_files [File "README.md"; File "a.txt"] [] ∅
     = ["README.md"; "a.txt"].
Proof.
  split; [|split; vm_compute; reflexivity].
  apply (exclusion_wins [File "README.md"; File "a.txt"] [] main_exclude_files
           "README.md").
  vm_compute. reflexivity.
Defined.

(** C10. The exclusion set of [main] holds the name of the output file.
    With the output file among the entries of the top directory during
    the walk, it is not among the files [main] renders, and the document
    is made of the sections of those files; it is the exclusion set that
    keeps it out, for with a set that lacks the name, and patterns that
    do not ignore it, the file is gathered. *)
Theorem output_file_never_rendered (w : world) :
  isdir_git w = true ->
  exists_gitignore w = true ->
  In (File "repoed.md") (top_entries w) ->
  "repoed.md" ∈ main_exclude_files
  /\ ~ In "repoed.md" (main_source_files w)
  /\ main w =
       Return (commits_section (git_commits w)
               +:+ readme_section (readme_lookup w)
               +:+ concat_strings
                     (map (fun file => file_section file (file_text w file))
                        (main_source_files w)))
  /\ (forall exclude_files : gset string,
         "repoed.md" ∉ exclude_files ->
         is_ignored "repoed.md" (gitignore_patterns w) = false ->
         In "repoed.md"
           (gather_source_files (top_entries w) (gitignore_patterns w) exclude_files)).
Proof.
  intros Hgit Hign Hfile.
  assert (Hin : "repoed.md" ∈ main_exclude_files) by (vm_compute; reflexivity).
  split; [exact Hin|]. split; [|split].
  - unfold main_source_files. rewrite sort_In, gather_source_files_In. tauto.
  - now apply main_document.
  - intros excl Hnot Hpat. apply gather_source_files_In.
    split; [|tauto].
    exact (top_file_candidate (top_entries w) "repoed.md" Hfile).
Qed.

Lemma output_file_never_rendered_witness :
  main_source_files running_world = ["a.txt"]
  /\ ~ In "repoed.md" (main_source_files running_world).
Proof.
  split; [vm_compute; reflexivity|].
  apply (output_file_never_rendered running_world);
    [reflexivity | reflexivity | cbn; tauto].
Defined.

(** ** Names and paths *)

Section PathFacts.

Local Arguments String.append : simpl nomatch.

Lemma contains_app (c : ascii) (a b : string) :
  Py.contains c (a +:+ b) = Py.contains c a || Py.contains c b.
Proof.
  induction a as [|x a IH]; [reflexivity|].
  cbn [String.append Py.contains]. now rewrite IH, orb_assoc.
Qed.

Lemma endswith_cons (c : ascii) (s suffix : string) :
  Py.endswith (String c s) suffix = String.eqb (String c s) suffix || Py.endswith s suffix.
Proof. reflexivity. Qed.

Lemma endswith_slash_no_slash (s : string) :
  Py.contains "/"%char s = false -> Py.endswith s "/" = false.
Proof.
  induction s as [|c s IH]; [reflexivity|].
  cbn [Py.contains]. intros H. apply orb_false_elim in H as [Hc Hs].
  rewrite endswith_cons, (IH Hs), orb_false_r.
  apply String.eqb_neq. intros [= -> _]. discriminate Hc.
Qed.

Lemma endswith_slash_app (a b : string) :
  b <> "" -> Py.endswith (a +:+ b) "/" = Py.endswith b "/".
Proof.
  intros Hb. induction a as [|c a IH]; [reflexivity|].
  cbn [String.append]. rewrite endswith_cons, IH.
  replace (String.eqb (String c (a +:+ b)) "/") with false; [reflexivity|].
  symmetry. apply String.eqb_neq. intros [= _ H].
  destruct a; [cbn in H; contradiction | discriminate H].
Qed.

Lemma valid_name_inv (name : string) :
  valid_name name = true -> name <> "" /\ Py.contains "/"%char name = false.
Proof.
  unfold valid_name. rewrite andb_true_iff, !negb_true_iff, String.eqb_neq.
  tauto.
Qed.

Lemma startswith_slash_no_slash (name : string) :
  Py.contains "/"%char name = false -> Py.startswith name "/" = false.
Proof.
  destruct name as [|c name]; [reflexivity|].
  cbn [Py.contains]. intros H. apply orb_false_elim in H as [Hc _].
  unfold Py.startswith. cbn [String.prefix].
  destruct (ascii_dec "/" c) as [<-|_]; [discriminate Hc|reflexivity].
Qed.

(** [join] puts one separator between a directory path and a name. *)
Lemma join_valid (a name : string) :
  a <> "" -> Py.endswith a "/" = false -> valid_name name = true ->
  Py.join a name = a +:+ "/" +:+ name.
Proof.
  intros Ha Hend Hname. apply valid_name_inv in Hname as [_ Hno].
  unfold Py.join. rewrite (startswith_slash_no_slash _ Hno), Hend.
  apply String.eqb_neq in Ha. now rewrite Ha.
Qed.

Lemma split_cons_no_sep (c : ascii) (s : string) :
  c <> "/"%char ->
  Py.split (String c s) "/" =
    match Py.split s "/" with
    | [] => [String c ""]
    | first :: others => String c first :: others
    end.
Proof.
  intros Hc. cbn [Py.split]. apply Ascii.eqb_neq in Hc. now rewrite Hc.
Qed.

Lemma split_no_slash (name : string) :
  Py.contains "/"%char name = false -> Py.split name "/" = [name].
Proof.
  induction name as [|c name IH]; [reflexivity|].
  cbn [Py.contains]. intros H. apply orb_false_elim in H as [Hc Hs].
  rewrite split_cons_no_sep, (IH Hs); [reflexivity|].
  intros ->. discriminate Hc.
Qed.

Lemma split_name_slash (name rest : string) :
  Py.contains "/"%char name = false ->
  Py.split (name +:+ "/" +:+ rest) "/" = name :: Py.split rest "/".
Proof.
  induction name as [|c name IH]; [reflexivity|].
  cbn [Py.contains]. intros H. apply orb_false_elim in H as [Hc Hs].
  change (String c name +:+ "/" +:+ rest) with (String c (name +:+ "/" +:+ rest)).
  rewrite split_cons_no_sep, (IH Hs); [reflexivity|].
  intros ->. discriminate Hc.
Qed.

End PathFacts.

(** ** Well-formed trees *)

Section EntryInduction.

Variable P : entry -> Prop.
Hypothesis P_File : forall name, P (File name).
Hypothesis P_Dir : forall name entries, Forall P entries -> P (Dir name entries).

Fixpoint entry_ind_Forall (e : entry) : P e :=
  match e with
  | File name => P_File name
  | Dir name entries =>
      P_Dir name entries
        ((fix all (es : list entry) : Forall P es :=
            match es with
            | [] => List.Forall_nil P
            | e' :: es' => List.Forall_cons P e' es' (entry_ind_Forall e') (all es')
            end) entries)
  end.

End EntryInduction.

Section WellFormedFacts.

Lemma well_formed_Dir (name : string) (entries : list entry) :
  well_formed (Dir name entries) = true
  <-> valid_name name = true
      /\ distinct (map entry_name entries) = true
      /\ Forall (fun e => well_formed e = true) entries.
Proof.
  cbn [well_formed]. rewrite !andb_true_iff.
  match goal with
  | |- (_ /\ ?all entries = true) <-> _ =>
      assert (Hall : all entries = true <-> Forall (fun e => well_formed e = true) entries)
  end.
  { induction entries as [|e es IH]; [now split|].
    rewrite andb_true_iff, IH, Forall_cons_iff. reflexivity. }
  rewrite Hall. tauto.
Qed.

Lemma In_file_names (name : string) (entries : list entry) :
  In name (file_names entries) <-> In (File name) entries.
Proof.
  unfold file_names. rewrite in_flat_map. split.
  - intros ([f|d ch] & Hin & Hname); cbn in Hname; [|contradiction].
    destruct Hname as [->|[]]. assumption.
  - intros Hin. exists (File name). split; [assumption | now left].
Qed.

Lemma In_dir_names (name : string) (entries : list entry) :
  In name (dir_names entries) <-> exists children, In (Dir name children) entries.
Proof.
  unfold dir_names. rewrite in_flat_map. split.
  - intros ([f|d ch] & Hin & Hname); cbn in Hname; [contradiction|].
    destruct Hname as [->|[]]. now exists ch.
  - intros [ch Hin]. exists (Dir name ch). split; [assumption | now left].
Qed.

Lemma existsb_eqb_false (name : string) (names : list string) :
  existsb (String.eqb name) names = false <-> ~ In name names.
Proof.
  rewrite <- not_true_iff_false, existsb_exists. split.
  - intros H Hin. apply H. exists name. split; [assumption | apply String.eqb_refl].
  - intros H (x & Hin & Heq). apply String.eqb_eq in Heq as ->. now apply H.
Qed.

Lemma distinct_cons (name : string) (names : list string) :
  distinct (name :: names) = true <-> ~ In name names /\ distinct names = true.
Proof.
  cbn [distinct]. now rewrite andb_true_iff, negb_true_iff, existsb_eqb_false.
Qed.

(** One name is not both a file and a directory of a directory. *)
Lemma file_is_no_dir (name : string) (entries : list entry) :
  distinct (map entry_name entries) = true ->
  In name (file_names entries) -> In name (dir_names entries) -> False.
Proof.
  rewrite In_file_names, In_dir_names.
  induction entries as [|e es IH]; [intros _ []|].
  cbn [map]. rewrite distinct_cons. intros [Hfresh Hd] Hf [ch Hdir].
  destruct Hf as [->|Hf], Hdir as [[=]|Hdir].
  - apply Hfresh. apply (in_map entry_name) in Hdir. exact Hdir.
  - subst e. apply Hfresh. apply (in_map entry_name) in Hf. exact Hf.
  - apply IH; eauto.
Qed.

Lemma dir_name_is_name (name : string) (entries : list entry) :
  In name (dir_names entries) -> In name (map entry_name entries).
Proof.
  rewrite In_dir_names. intros [ch Hin].
  apply (in_map entry_name) in Hin. exact Hin.
Qed.

Lemma distinct_dir_names (entries : list entry) :
  distinct (map entry_name entries) = true -> distinct (dir_names entries) = true.
Proof.
  induction entries as [|[f|d ch] es IH]; [reflexivity| |];
    cbn [map entry_name]; rewrite distinct_cons; intros [Hfresh Hd].
  - now apply IH.
  - change (dir_names (Dir d ch :: es)) with (d :: dir_names es).
    rewrite distinct_cons. split; [|now apply IH].
    intros Hin. apply Hfresh. now apply dir_name_is_name.
Qed.

Lemma list_remove_distinct (name : string) (names : list string) :
  distinct names = true -> ~ In name (list_remove name names).
Proof.
  induction names as [|y names IH]; [intros _ []|].
  rewrite distinct_cons. intros [Hfresh Hd]. cbn [list_remove].
  destruct (String.eqb y name) eqn:E.
  - apply String.eqb_eq in E as ->. exact Hfresh.
  - apply String.eqb_neq in E. intros [->|Hin]; [now apply E | now apply IH].
Qed.

(** With different names in a directory, the loop over [dirs] walks
    every directory but the one named ".git". *)
Lemma descend_flat_map (top : string) (entries : list entry) (removed : bool) :
  distinct (map entry_name entries) = true ->
  (removed = true -> ~ In ".git" (dir_names entries)) ->
  descend top entries removed = flat_map (walk_sub top) entries.
Proof.
  revert removed.
  induction entries as [|[f|d ch] es IH]; intros removed; [reflexivity| |];
    cbn [map entry_name]; rewrite distinct_cons; intros [Hfresh Hd] Hrem.
  - cbn [descend flat_map walk_sub app]. apply IH; [assumption|].
    intros Hr. exact (Hrem Hr).
  - cbn [descend flat_map walk_sub].
    destruct (String.eqb d ".git") eqn:E.
    + apply String.eqb_eq in E as ->. destruct removed.
      * exfalso. apply (Hrem eq_refl). now left.
      * cbn [negb andb app]. apply IH; [assumption|].
        intros _ Hin. apply Hfresh. now apply dir_name_is_name.
    + rewrite andb_false_r. f_equal. apply IH; [assumption|].
      intros Hr Hin. apply (Hrem Hr). now right.
Qed.

Lemma os_walk_flat_map (top name : string) (entries : list entry) :
  distinct (map entry_name entries) = true ->
  os_walk top (Dir name entries) =
    (top, list_remove ".git" (dir_names entries), file_names entries)
    :: flat_map (walk_sub top) entries.
Proof.
  intros Hd. rewrite os_walk_dir. f_equal.
  apply descend_flat_map; [assumption | discriminate].
Qed.

End WellFormedFacts.

(** ** The paths of the walk *)

Section WalkFacts.

Local Arguments String.append : simpl nomatch.

Abbreviation valid_names := (Forall (fun name => valid_name name = true)).

Lemma below_cons (d : string) (ds : list string) :
  below (d :: ds) = "/" +:+ d +:+ below ds.
Proof. unfold below. cbn [map concat_strings fold_right]. apply string_app_assoc. Qed.

Lemma below_snoc (ds : list string) (d : string) :
  below (ds ++ [d]) = below ds +:+ "/" +:+ d.
Proof.
  unfold below. rewrite map_app, concat_strings_app.
  cbn [map concat_strings fold_right]. now rewrite string_app_nil_r.
Qed.

Lemma string_app_empty (a b : string) : a +:+ b = "" -> b = "".
Proof. destruct a; [now cbn | discriminate]. Qed.

Lemma root_of_good (ds : list string) :
  valid_names ds -> root_of ds <> "" /\ Py.endswith (root_of ds) "/" = false.
Proof.
  intros Hds. split; [discriminate|].
  destruct ds as [|d ds] using rev_ind; [reflexivity|].
  apply Forall_app in Hds as [_ Hd]. apply Forall_inv in Hd.
  apply valid_name_inv in Hd as [Hne Hno].
  unfold root_of. rewrite below_snoc, <- !string_app_assoc.
  rewrite endswith_slash_app by assumption.
  now apply endswith_slash_no_slash.
Qed.

Lemma join_root_of (ds : list string) (name : string) :
  valid_names ds -> valid_name name = true ->
  Py.join (root_of ds) name = root_of (ds ++ [name]).
Proof.
  intros Hds Hname. destruct (root_of_good ds Hds) as [Hne Hend].
  rewrite join_valid by assumption.
  unfold root_of. now rewrite below_snoc, !string_app_assoc.
Qed.

(** The path reported for the file [file] of the directory reached
    through [ds]. *)
Lemma rel_path_root_of (ds : list string) (file : string) :
  valid_names ds -> valid_name file = true ->
  rel_path (root_of ds) file = Py.drop_first (below (ds ++ [file])).
Proof.
  intros Hds Hfile. unfold rel_path. rewrite join_root_of by assumption.
  unfold root_of.
  destruct (ds ++ [file]) as [|d l] eqn:E; [now destruct ds|].
  rewrite below_cons.
  replace (Py.startswith ("." +:+ "/" +:+ d +:+ below l) "./") with true;
    [reflexivity|].
  symmetry. apply startswith_iff. now exists (d +:+ below l).
Qed.

Lemma split_below (d : string) (ds : list string) :
  Forall (fun name => Py.contains "/"%char name = false) (d :: ds) ->
  Py.split (Py.drop_first (below (d :: ds))) "/" = d :: ds.
Proof.
  revert d. induction ds as [|d' ds IH]; intros d Hall.
  - apply Forall_inv in Hall. rewrite below_cons. unfold below.
    cbn [map concat_strings fold_right Py.drop_first String.append].
    rewrite string_app_nil_r. now apply split_no_slash.
  - pose proof (Forall_inv Hall) as Hd. apply Forall_inv_tail in Hall.
    rewrite below_cons.
    change (Py.drop_first ("/" +:+ d +:+ below (d' :: ds)))
      with (d +:+ below (d' :: ds)).
    rewrite below_cons.
    rewrite split_name_slash by assumption.
    f_equal. rewrite <- (IH d' Hall), below_cons. reflexivity.
Qed.

Lemma valid_names_no_slash (names : list string) :
  valid_names names -> Forall (fun name => Py.contains "/"%char name = false) names.
Proof.
  intros Hall. eapply Forall_impl; [exact Hall|].
  intros name H. now apply valid_name_inv in H.
Qed.

Lemma split_root_of (ds : list string) :
  valid_names ds -> Py.split (root_of ds) "/" = "." :: ds.
Proof.
  intros Hds. unfold root_of. destruct ds as [|d ds]; [reflexivity|].
  rewrite below_cons. rewrite (split_name_slash "." _ eq_refl).
  f_equal. rewrite <- (split_below d ds) by now apply valid_names_no_slash.
  rewrite below_cons. reflexivity.
Qed.

Lemma valid_name_not_dot_git_component (ds : list string) :
  ~ In ".git" ds -> ~ In ".git" ("." :: ds).
Proof. intros H [Heq|Hin]; [discriminate Heq | now apply H]. Qed.

(** What the walk of a well-formed tree yields: the roots are reached
    through valid names other than ".git", [dirs] has lost ".git",
    and the files have valid names. *)
Lemma os_walk_invariant (dir : entry) :
  well_formed dir = true ->
  forall ds, valid_names ds ->
  forall root dirs files,
    In (root, dirs, files) (os_walk (root_of ds) dir) ->
    exists ds',
      root = root_of (ds ++ ds')
      /\ valid_names ds' /\ ~ In ".git" ds'
      /\ ~ In ".git" dirs
      /\ valid_names files
      /\ (ds' = [] -> exists name entries,
             dir = Dir name entries /\ files = file_names entries).
Proof.
  induction dir as [name|name entries IH] using entry_ind_Forall;
    intros Hwf ds Hds root dirs files Hin; [contradiction|].
  apply well_formed_Dir in Hwf as (Hname & Hdist & Hsub).
  rewrite os_walk_flat_map in Hin by assumption.
  destruct Hin as [[= <- <- <-]|Hin].
  - exists []. rewrite app_nil_r.
    split; [reflexivity|]. split; [constructor|]. split; [intros []|].
    split; [apply list_remove_distinct; now apply distinct_dir_names|].
    split; [|intros _; eauto].
    apply List.Forall_forall. intros file Hfile. rewrite In_file_names in Hfile.
    rewrite List.Forall_forall in Hsub. exact (Hsub _ Hfile).
  - apply in_flat_map in Hin as (e & He & Hin).
    rewrite List.Forall_forall in IH, Hsub.
    destruct e as [f|d ch]; [contradiction|]. cbn [walk_sub] in Hin.
    destruct (String.eqb d ".git") eqn:E; [contradiction|].
    apply String.eqb_neq in E.
    pose proof (Hsub _ He) as Hwfe.
    pose proof Hwfe as Hd. apply well_formed_Dir in Hd as [Hd _].
    rewrite join_root_of in Hin by assumption.
    assert (Hvalid : valid_names (ds ++ [d])).
    { apply Forall_app. split; [assumption | now constructor]. }
    destruct (IH _ He Hwfe (ds ++ [d]) Hvalid root dirs files Hin)
      as (ds' & Hroot & Hv & Hng & Hdirs & Hfiles & _).
    exists (d :: ds'). rewrite <- app_assoc in Hroot.
    split; [exact Hroot|]. split; [now constructor|].
    split; [intros [Heq|Hin']; [now apply E | now apply Hng]|].
    split; [assumption|]. split; [assumption|]. discriminate.
Qed.

End WalkFacts.

(** C9. On a tree whose names are valid and differ inside each
    directory, the walk yields no directory reached through a
    directory named ".git" and leaves no ".git" in [dirs]; no gathered
    path goes through a directory named ".git", and when the top
    directory has a directory ".git", the path ".git" itself is not
    gathered. *)
Theorem git_directory_never_reported (entries : list entry)
    (ignore_patterns : list string) (exclude_files : gset string) :
  well_formed (Dir "." entries) = true ->
  (forall root dirs files,
      In (root, dirs, files) (os_walk "." (Dir "." entries)) ->
      ~ In ".git" dirs /\ ~ In ".git" (Py.split root "/"))
  /\ (forall path,
         In path (gather_source_files entries ignore_patterns exclude_files) ->
         ~ In ".git" (directories_of path)
         /\ (In ".git" (dir_names entries) -> path <> ".git")).
Proof.
  intros Hwf.
  assert (Hinv := os_walk_invariant (Dir "." entries) Hwf [] (List.Forall_nil _)).
  change (root_of []) with "." in Hinv.
  split.
  - intros root dirs files Hin.
    destruct (Hinv root dirs files Hin) as (ds & -> & Hv & Hng & Hdirs & _).
    split; [assumption|]. cbn [app].
    rewrite split_root_of by assumption.
    now apply valid_name_not_dot_git_component.
  - intros path Hpath. apply gather_source_files_In in Hpath as [Hcand _].
    unfold candidates, paths_of in Hcand.
    apply in_flat_map in Hcand as ([[root dirs] files] & Hin & Hfile).
    apply in_map_iff in Hfile as (file & <- & Hfile).
    destruct (Hinv root dirs files Hin) as (ds & -> & Hv & Hng & _ & Hfiles & Htop).
    cbn [app] in *.
    assert (Hvf : valid_name file = true).
    { rewrite List.Forall_forall in Hfiles. now apply Hfiles. }
    rewrite rel_path_root_of by assumption.
    assert (Hsplit : Py.split (Py.drop_first (below (ds ++ [file]))) "/" = ds ++ [file]).
    { destruct (ds ++ [file]) as [|d l] eqn:E; [now destruct ds|].
      apply split_below. apply valid_names_no_slash. rewrite <- E.
      apply Forall_app. split; [assumption | now constructor]. }
    split.
    + unfold directories_of. now rewrite Hsplit, removelast_last.
    + intros Hdir Heq. rewrite Heq in Hsplit. cbn in Hsplit.
      destruct ds as [|d [|d' ds]]; try discriminate Hsplit.
      injection Hsplit as <-.
      destruct (Htop eq_refl) as (name & es & [= <- <-] & ->).
      apply well_formed_Dir in Hwf as (_ & Hdist & _).
      exact (file_is_no_dir ".git" entries Hdist Hfile Hdir).
Qed.

Lemma git_directory_never_reported_witness :
  gather_source_files nested_listing [] ∅ = ["a.txt"; "src/main.py"; "src/lib/util.py"]
  /\ map fst (map fst (os_walk "." (Dir "." nested_listing)))
     = ["."; "./src"; "./src/lib"]
  /\ ~ In ".git" (directories_of "src/lib/util.py").
Proof.
  split; [vm_compute; reflexivity|]. split; [vm_compute; reflexivity|].
  destruct (git_directory_never_reported nested_listing [] ∅) as [_ Hpaths];
    [reflexivity|].
  apply (Hpaths "src/lib/util.py"). vm_compute. tauto.
Defined.

(** ** The order of the directory entries *)

Section SameTreeInduction.

Variable P : entry -> entry -> Prop.
Hypothesis P_file : forall name, P (File name) (File name).
Hypothesis P_dir :
  forall name es1 es1' es2,
    Permutation es1 es1' ->
    Forall2 (fun e1 e2 => same_tree e1 e2 /\ P e1 e2) es1' es2 ->
    P (Dir name es1) (Dir name es2).

Fixpoint same_tree_ind_Forall2 (e1 e2 : entry) (H : same_tree e1 e2) : P e1 e2 :=
  match H with
  | same_file name => P_file name
  | same_dir name es1 es1' es2 Hperm Hall =>
      P_dir name es1 es1' es2 Hperm
        ((fix all (l1 l2 : list entry) (F : Forall2 same_tree l1 l2)
            : Forall2 (fun e1 e2 => same_tree e1 e2 /\ P e1 e2) l1 l2 :=
            match F with
            | List.Forall2_nil _ => List.Forall2_nil _
            | List.Forall2_cons a b Hab F' =>
                List.Forall2_cons a b (conj Hab (same_tree_ind_Forall2 a b Hab))
                  (all _ _ F')
            end) es1' es2 Hall)
  end.

End SameTreeInduction.

Section OrderFacts.

Variables (ignore_patterns : list string) (exclude_files : gset string).

Lemma same_tree_refl (e : entry) : same_tree e e.
Proof.
  induction e as [name|name entries IH] using entry_ind_Forall; [constructor|].
  apply (same_dir name entries entries entries); [reflexivity|].
  induction IH; constructor; assumption.
Qed.

Lemma same_tree_name (e1 e2 : entry) :
  same_tree e1 e2 -> entry_name e1 = entry_name e2.
Proof. now intros []. Qed.

Lemma same_tree_names (es1 es2 : list entry) :
  Forall2 same_tree es1 es2 -> map entry_name es1 = map entry_name es2.
Proof.
  induction 1 as [|e1 e2 l1 l2 He _ IH]; [reflexivity|].
  cbn [map]. now rewrite IH, (same_tree_name _ _ He).
Qed.

Lemma same_tree_file_names (es1 es2 : list entry) :
  Forall2 same_tree es1 es2 -> file_names es1 = file_names es2.
Proof.
  induction 1 as [|e1 e2 l1 l2 He _ IH]; [reflexivity|].
  unfold file_names in *. cbn [flat_map]. rewrite IH. now destruct He.
Qed.

Lemma distinct_NoDup (names : list string) : distinct names = true <-> List.NoDup names.
Proof.
  induction names as [|name names IH]; [split; [constructor | reflexivity]|].
  rewrite distinct_cons, IH. split.
  - intros [Hfresh Hnd]. now constructor.
  - intros Hnd. inversion Hnd; subst. tauto.
Qed.

(** Another listing of a well-formed tree is well formed. *)
Lemma same_tree_well_formed (e1 e2 : entry) :
  same_tree e1 e2 -> well_formed e1 = true -> well_formed e2 = true.
Proof.
  intros H. induction H as [name|name es1 es1' es2 Hperm Hall]
    using same_tree_ind_Forall2; [trivial|].
  rewrite !well_formed_Dir. intros (Hname & Hdist & Hwf).
  split; [assumption|].
  assert (Hsame : Forall2 same_tree es1' es2).
  { eapply List.Forall2_impl; [|exact Hall]. now intros a b [Hab _]. }
  split.
  - rewrite <- (same_tree_names _ _ Hsame).
    apply distinct_NoDup. apply distinct_NoDup in Hdist.
    eapply Permutation_NoDup; [|exact Hdist].
    now apply Permutation_map.
  - assert (Hwf' : Forall (fun e => well_formed e = true) es1').
    { eapply Permutation_Forall; [exact Hperm | exact Hwf]. }
    clear Hperm Hsame Hwf Hdist.
    induction Hall as [|a b l1 l2 [_ IHab] _ IH]; [constructor|].
    apply Forall_cons_iff in Hwf' as [Ha Hl].
    constructor; [now apply IHab | now apply IH].
Qed.

Lemma paths_of_app (t1 t2 : list (string * list string * list string)) :
  paths_of (t1 ++ t2) = paths_of t1 ++ paths_of t2.
Proof. apply flat_map_app. Qed.

(** The walks of two listings of one tree look at the same paths. *)
Lemma same_tree_paths (e1 e2 : entry) :
  same_tree e1 e2 ->
  well_formed e1 = true ->
  forall top, Permutation (paths_of (os_walk top e1)) (paths_of (os_walk top e2)).
Proof.
  intros H. induction H as [name|name es1 es1' es2 Hperm Hall]
    using same_tree_ind_Forall2; [reflexivity|].
  intros Hwf1 top.
  assert (Hwf2 : well_formed (Dir name es2) = true).
  { apply (same_tree_well_formed (Dir name es1)); [|assumption].
    apply (same_dir name es1 es1' es2); [assumption|].
    eapply List.Forall2_impl; [|exact Hall]. now intros a b [Hab _]. }
  pose proof Hwf1 as Hwf1'.
  apply well_formed_Dir in Hwf1' as (_ & Hd1 & Hsub1).
  apply well_formed_Dir in Hwf2 as (_ & Hd2 & _).
  rewrite !os_walk_flat_map by assumption.
  change (?t :: flat_map ?g ?l) with ([t] ++ flat_map g l).
  rewrite !(paths_of_app [_] _).
  apply Permutation_app.
  - unfold paths_of. cbn [flat_map]. rewrite !app_nil_r.
    apply Permutation_map.
    assert (Hsame : Forall2 same_tree es1' es2).
    { eapply List.Forall2_impl; [|exact Hall]. now intros a b [Hab _]. }
    rewrite <- (same_tree_file_names _ _ Hsame).
    unfold file_names. now apply Permutation_flat_map.
  - transitivity (paths_of (flat_map (walk_sub top) es1')).
    { unfold paths_of. now do 2 apply Permutation_flat_map. }
    assert (Hsub1' : Forall (fun e => well_formed e = true) es1').
    { eapply Permutation_Forall; [exact Hperm | exact Hsub1]. }
    clear Hperm Hd1 Hd2 Hsub1 Hwf1.
    induction Hall as [|a b l1 l2 [Hab IHab] _ IH]; [reflexivity|].
    apply Forall_cons_iff in Hsub1' as [Ha Hl].
    cbn [flat_map]. rewrite !paths_of_app.
    apply Permutation_app; [|now apply IH].
    destruct Hab as [f|d l l' r Hp Hf]; [reflexivity|].
    cbn [walk_sub]. destruct (String.eqb d ".git"); [reflexivity|].
    now apply IHab.
Qed.

Lemma filter_Permutation_list {A : Type} (f : A -> bool) (l1 l2 : list A) :
  Permutation l1 l2 -> Permutation (List.filter f l1) (List.filter f l2).
Proof.
  induction 1 as [|x l1 l2 _ IH|x y l|l1 l2 l3 _ IH1 _ IH2].
  - reflexivity.
  - cbn [List.filter]. destruct (f x); [now constructor | assumption].
  - cbn [List.filter]. destruct (f x), (f y); try reflexivity. constructor.
  - now transitivity (List.filter f l2).
Qed.

Lemma sort_sorted (l : list string) : StronglySorted String.le (sort l).
Proof. apply StronglySorted_merge_sort; apply _. Qed.

Lemma sort_Permutation (l1 l2 : list string) :
  Permutation l1 l2 -> sort l1 = sort l2.
Proof.
  intros Hperm.
  apply (StronglySorted_unique String.le); [apply sort_sorted..|].
  unfold sort. now rewrite !merge_sort_Permutation.
Qed.

Lemma gather_same_tree (entries1 entries2 : list entry) :
  well_formed (Dir "." entries1) = true ->
  same_tree (Dir "." entries1) (Dir "." entries2) ->
  Permutation (gather_source_files entries1 ignore_patterns exclude_files)
    (gather_source_files entries2 ignore_patterns exclude_files).
Proof.
  intros Hwf Hsame. rewrite !gather_source_files_filter.
  apply filter_Permutation_list. unfold candidates.
  now apply same_tree_paths.
Qed.

End OrderFacts.

(** C5. The list [main] renders is in lexicographic order, and it does
    not depend on the order in which the directories hand out their
    entries: two walks of the same tree, with the same patterns and the
    same exclusion set, give the same sorted list.  (The first tree is
    well formed; the gathered lists themselves may differ in order.) *)
Theorem discovery_sorted_and_deterministic (entries1 entries2 : list entry)
    (ignore_patterns : list string) (exclude_files : gset string) :
  well_formed (Dir "." entries1) = true ->
  same_tree (Dir "." entries1) (Dir "." entries2) ->
  sort (gather_source_files entries1 ignore_patterns exclude_files)
  = sort (gather_source_files entries2 ignore_patterns exclude_files)
  /\ StronglySorted String.le
       (sort (gather_source_files entries1 ignore_patterns exclude_files))
  /\ Permutation (sort (gather_source_files entries1 ignore_patterns exclude_files))
       (gather_source_files entries1 ignore_patterns exclude_files)
  /\ (forall w, StronglySorted String.le (main_source_files w)).
Proof.
  intros Hwf Hsame. split; [|split; [|split]].
  - apply sort_Permutation. now apply gather_same_tree.
  - apply sort_sorted.
  - apply merge_sort_Permutation.
  - intros w. apply sort_sorted.
Qed.

Lemma discovery_sorted_and_deterministic_witness :
  gather_source_files listing_one [] ∅ = ["b.txt"; "a.txt"; "src/z.py"; "src/a.py"]
  /\ gather_source_files listing_two [] ∅ = ["a.txt"; "b.txt"; "src/a.py"; "src/z.py"]
  /\ sort (gather_source_files listing_one [] ∅)
     = ["a.txt"; "b.txt"; "src/a.py"; "src/z.py"]
  /\ sort (gather_source_files listing_one [] ∅)
     = sort (gather_source_files listing_two [] ∅).
Proof.
  do 3 (split; [vm_compute; reflexivity|]).
  apply (discovery_sorted_and_deterministic listing_one listing_two [] ∅).
  - reflexivity.
  - apply (same_dir "." listing_one
             [File "a.txt"; File "b.txt"; Dir "src" [File "z.py"; File "a.py"]]
             listing_two).
    + apply perm_swap.
    + repeat constructor.
      apply (same_dir "src" _ [File "a.py"; File "z.py"] _).
      * apply perm_swap.
      * repeat constructor.
Defined.

(** * Further properties of the ignore engine *)

Section IgnoreEngineFacts.

Local Arguments String.append : simpl nomatch.

Lemma startswith_empty (s : string) : Py.startswith s "" = true.
Proof. now destruct s. Qed.

Lemma endswith_iff (s suffix : string) :
  Py.endswith s suffix = true <-> exists pre, s = pre +:+ suffix.
Proof.
  induction s as [|c s IH].
  - cbn [Py.endswith]. rewrite orb_false_r, String.eqb_eq. split.
    + intros <-. now exists "".
    + intros [[|d pre] H]; [exact H | discriminate H].
  - rewrite endswith_cons, orb_true_iff, String.eqb_eq, IH. split.
    + intros [<-|[pre ->]]; [now exists "" | now exists (String c pre)].
    + intros [[|d pre] H]; [now left|].
      injection H as -> ->. right. now exists pre.
Qed.

Lemma basename_suffix (p : string) : exists pre, p = pre +:+ Py.basename p.
Proof.
  induction p as [|c p [pre IH]]; [now exists ""|].
  cbn [Py.basename]. destruct (Py.contains "/" p).
  - exists (String c pre). cbn [String.append]. now rewrite <- IH.
  - destruct (Ascii.eqb c "/"); [now exists (String c "") | now exists ""].
Qed.

Lemma is_ignored_app (file_path : string) (l1 l2 : list string) :
  is_ignored file_path (l1 ++ l2) =
    fold_left (is_ignored_body file_path) l2 (is_ignored file_path l1).
Proof. unfold is_ignored. apply fold_left_app. Qed.

Lemma fold_body_no_match (file_path : string) (l : list string) (ignore : bool) :
  existsb (pattern_matches file_path) l = false ->
  fold_left (is_ignored_body file_path) l ignore = ignore.
Proof.
  revert ignore. induction l as [|line l IH]; intros ignore; [reflexivity|].
  cbn [existsb fold_left]. intros H. apply orb_false_elim in H as [Hline Hl].
  now rewrite is_ignored_body_spec, Hline, IH.
Qed.

Lemma fold_body_match (file_path : string) (l : list string) (b1 b2 : bool) :
  existsb (pattern_matches file_path) l = true ->
  fold_left (is_ignored_body file_path) l b1 =
  fold_left (is_ignored_body file_path) l b2.
Proof.
  revert b1 b2. induction l as [|line l IH]; intros b1 b2; [discriminate|].
  cbn [existsb fold_left]. rewrite !is_ignored_body_spec.
  destruct (pattern_matches file_path line); [reflexivity|].
  cbn [orb]. apply IH.
Qed.

End IgnoreEngineFacts.

(** X1. The leading "/" of a line is dropped and nothing else remembers
    it: a line and the same line behind "/" act alike on every path,
    alone and inside a list, with or without "!" in front.  The text
    does not itself start with "!" or "/". *)
Theorem anchor_has_no_effect (text : string) :
  Py.startswith text "!" = false ->
  Py.startswith text "/" = false ->
  (forall file_path ignore,
      is_ignored_body file_path ignore ("/" +:+ text)
      = is_ignored_body file_path ignore text
      /\ is_ignored_body file_path ignore ("!/" +:+ text)
         = is_ignored_body file_path ignore ("!" +:+ text))
  /\ (forall file_path before after,
         is_ignored file_path (before ++ ("/" +:+ text) :: after)
         = is_ignored file_path (before ++ text :: after)).
Proof.
  intros Hbang Hslash.
  assert (Hbody : forall file_path ignore,
             is_ignored_body file_path ignore ("/" +:+ text)
             = is_ignored_body file_path ignore text).
  { intros f ig. unfold is_ignored_body.
    change ("/" +:+ text) with (String "/" text).
    change (Py.startswith (String "/" text) "!") with false.
    rewrite Hbang. cbv iota beta zeta.
    change (Py.startswith (String "/" text) "/") with (Py.startswith text "").
    rewrite startswith_empty, Hslash. reflexivity. }
  split.
  - intros f ig. split; [apply Hbody|].
    unfold is_ignored_body.
    change ("!/" +:+ text) with (String "!" (String "/" text)).
    change ("!" +:+ text) with (String "!" text).
    change (Py.startswith (String "!" ?s) "!") with (Py.startswith s "").
    rewrite !startswith_empty. cbv iota beta zeta. cbn [Py.drop_first].
    change (Py.startswith (String "/" text) "/") with (Py.startswith text "").
    rewrite startswith_empty, Hslash. reflexivity.
  - intros f before after. rewrite !is_ignored_app. cbn [fold_left].
    now rewrite Hbody.
Qed.

Lemma anchor_has_no_effect_witness :
  is_ignored "build/out.txt" ["/build"] = is_ignored "build/out.txt" ["build"]
  /\ is_ignored "build/out.txt" ["/build"] = true
  /\ is_ignored "src/build" ["/build"] = true.
Proof.
  split; [|split; reflexivity].
  destruct (anchor_has_no_effect "build") as [_ Hlist]; [reflexivity..|].
  exact (Hlist "build/out.txt" [] []).
Defined.

(** X2. Last match wins across a concatenation of rule lists: when some
    line of the second list matches the path, the first list is
    forgotten; when none does, the second list is. *)
Theorem is_ignored_concatenation (file_path : string) (first second : list string) :
  is_ignored file_path (first ++ second) =
    if existsb (pattern_matches file_path) second
    then is_ignored file_path second
    else is_ignored file_path first.
Proof.
  rewrite is_ignored_app.
  destruct (existsb (pattern_matches file_path) second) eqn:E.
  - unfold is_ignored at 2. now apply fold_body_match.
  - now apply fold_body_no_match.
Qed.

Section SuffixPatternFacts.

Import Fnmatch.

Lemma re_match_star_literal (l name : list ascii) :
  re_match (Star :: map Lit l) name = true <-> exists pre, name = pre ++ l.
Proof.
  induction name as [|c name IH].
  - rewrite re_match_star_nil, orb_false_r, re_match_literal. split.
    + intros <-. now exists [].
    + intros [[|d pre] H]; [exact H | discriminate H].
  - rewrite re_match_star_cons, orb_true_iff, re_match_literal, IH. split.
    + intros [<-|[pre ->]]; [now exists [] | now exists (c :: pre)].
    + intros [[|d pre] H]; [now left|].
      injection H as -> ->. right. now exists pre.
Qed.

Lemma fnmatch_star_literal (name text : string) :
  has_wildcard text = false ->
  fnmatch name ("*" +:+ text) = true <-> exists pre, name = pre +:+ text.
Proof.
  intros Hw. unfold fnmatch, fnmatchcase.
  change (translate (list_ascii_of_string ("*" +:+ text)))
    with (Star :: translate (list_ascii_of_string text)).
  rewrite translate_literal, re_match_star_literal by assumption. split.
  - intros [pre H]. exists (string_of_list_ascii pre).
    rewrite <- (string_of_list_ascii_of_string name), H.
    rewrite <- (string_of_list_ascii_of_string
                  (string_of_list_ascii pre +:+ text)).
    now rewrite list_ascii_of_string_app, list_ascii_of_string_of_list_ascii.
  - intros [pre ->]. exists (list_ascii_of_string pre).
    apply list_ascii_of_string_app.
Qed.

End SuffixPatternFacts.

(** X3. A star followed by a text without wildcard characters and
    without trailing "/" matches exactly the paths that end with the
    text, at any depth: the star runs over separators, and a path whose
    final segment ends with the text ends with it too. *)
Theorem suffix_pattern_matches (file_path text : string) :
  has_wildcard text = false ->
  Py.endswith text "/" = false ->
  (pattern_matches file_path ("*" +:+ text) = true
   <-> exists pre, file_path = pre +:+ text)
  /\ is_ignored file_path ["*" +:+ text] = Py.endswith file_path text.
Proof.
  intros Hw Hd.
  assert (Hiff : pattern_matches file_path ("*" +:+ text) = true
                 <-> exists pre, file_path = pre +:+ text).
  { rewrite pattern_matches_eq.
    change (pattern_text ("*" +:+ text)) with ("*" +:+ text).
    unfold directory_only.
    change (pattern_text ("*" +:+ text)) with ("*" +:+ text).
    change (Py.endswith ("*" +:+ text) "/") with (false || Py.endswith text "/").
    rewrite Hd.
    change (has_wildcard ("*" +:+ text)) with true.
    cbn [negb andb orb].
    rewrite orb_true_iff, !fnmatch_star_literal by assumption.
    split; [|now left].
    intros [H|[pre H]]; [exact H|].
    destruct (basename_suffix file_path) as [pre' Hb].
    exists (pre' +:+ pre). now rewrite string_app_assoc, <- H. }
  split; [exact Hiff|].
  unfold is_ignored. cbn [fold_left]. rewrite is_ignored_body_spec.
  change (negated ("*" +:+ text)) with false. cbn [negb].
  destruct (pattern_matches file_path ("*" +:+ text)) eqn:E.
  - symmetry. apply endswith_iff. now apply Hiff.
  - symmetry. apply not_true_iff_false. intros H.
    apply endswith_iff, Hiff in H. congruence.
Qed.

Lemma suffix_pattern_matches_witness :
  is_ignored "logs/2024/app.log" ["*.log"] = true
  /\ is_ignored "app.log.txt" ["*.log"] = false
  /\ pattern_matches "logs/2024/app.log" "*.log" = true.
Proof.
  split; [reflexivity|]. split; [reflexivity|].
  destruct (suffix_pattern_matches "logs/2024/app.log" ".log") as [Hiff _];
    [reflexivity..|].
  apply Hiff. now exists "logs/2024/app".
Defined.

(** * Further properties of discovery and assembly *)

Section TopFileFacts.

Variables (ignore_patterns : list string) (exclude_files : gset string).

Lemma file_names_app (es1 es2 : list entry) :
  file_names (es1 ++ es2) = file_names es1 ++ file_names es2.
Proof. apply flat_map_app. Qed.

Lemma dir_names_app (es1 es2 : list entry) :
  dir_names (es1 ++ es2) = dir_names es1 ++ dir_names es2.
Proof. apply flat_map_app. Qed.

Lemma descend_skip_file (top name : string) (es1 es2 : list entry) (removed : bool) :
  descend top (es1 ++ File name :: es2) removed = descend top (es1 ++ es2) removed.
Proof.
  revert removed. induction es1 as [|[f|d ch] es1 IH]; intros removed.
  - reflexivity.
  - cbn [app descend]. apply IH.
  - cbn [app descend]. now rewrite !IH.
Qed.

Lemma paths_of_cons (root : string) (dirs files : list string)
    (triples : list (string * list string * list string)) :
  paths_of ((root, dirs, files) :: triples) =
    map (rel_path root) files ++ paths_of triples.
Proof. reflexivity. Qed.

(** A file of the top directory whose path is excluded leaves no trace
    in the gathered list. *)
Lemma gather_skip_top_file (name : string) (es1 es2 : list entry) :
  rel_path "." name ∈ exclude_files ->
  gather_source_files (es1 ++ File name :: es2) ignore_patterns exclude_files
  = gather_source_files (es1 ++ es2) ignore_patterns exclude_files.
Proof.
  intros Hex. rewrite !gather_source_files_filter. unfold candidates.
  rewrite !os_walk_dir, !paths_of_cons, descend_skip_file.
  rewrite !file_names_app. change (file_names (File name :: es2))
    with ([name] ++ file_names es2).
  rewrite !map_app, !List.filter_app. cbn [map List.filter].
  unfold kept at 2. rewrite (bool_decide_eq_true_2 _ Hex). reflexivity.
Qed.

End TopFileFacts.

(** X4. The entry of the output file in the top directory adds nothing
    to the document: wherever "repoed.md" stands among the entries, the
    run writes the same text, which is the text it would write over the
    other entries alone.  The gathered list is the same as well, under
    every list of patterns. *)
Theorem output_file_is_invisible (w : world) (before between after : list entry) :
  main (with_top_entries w (before ++ File "repoed.md" :: between ++ after))
  = main (with_top_entries w (before ++ between ++ File "repoed.md" :: after))
  /\ main (with_top_entries w (before ++ File "repoed.md" :: after))
     = main (with_top_entries w (before ++ after))
  /\ (forall ignore_patterns,
         gather_source_files (before ++ File "repoed.md" :: after)
           ignore_patterns main_exclude_files
         = gather_source_files (before ++ after) ignore_patterns main_exclude_files).
Proof.
  assert (Hrel : rel_path "." "repoed.md" ∈ main_exclude_files)
    by (vm_compute; reflexivity).
  assert (Hmain : forall es1 es2,
             main (with_top_entries w (es1 ++ File "repoed.md" :: es2))
             = main (with_top_entries w (es1 ++ es2))).
  { intros es1 es2. unfold main.
    change (main_source_files (with_top_entries w ?es))
      with (sort (gather_source_files es (gitignore_patterns w) main_exclude_files)).
    rewrite (gather_skip_top_file _ _ "repoed.md" es1 es2 Hrel).
    reflexivity. }
  split; [|split].
  - rewrite (Hmain before (between ++ after)).
    rewrite (app_assoc before between (File "repoed.md" :: after)).
    now rewrite (Hmain (before ++ between) after), <- app_assoc.
  - apply Hmain.
  - intros pats. now apply gather_skip_top_file.
Qed.

Section FilesUnderFacts.

Local Arguments String.append : simpl nomatch.

Variables (ignore_patterns : list string) (exclude_files : gset string).

Lemma files_under_Dir (name : string) (entries : list entry) :
  files_under (Dir name entries) =
    map (fun file => [file]) (file_names entries) ++ flat_map sub_files entries.
Proof. reflexivity. Qed.

Lemma below_concat (d : string) (ds : list string) :
  Py.drop_first (below (d :: ds)) = String.concat "/" (d :: ds).
Proof.
  revert d. induction ds as [|d' ds IH]; intros d.
  - rewrite below_cons. unfold below. cbn. apply string_app_nil_r.
  - rewrite below_cons.
    change (Py.drop_first ("/" +:+ d +:+ below (d' :: ds)))
      with (d +:+ below (d' :: ds)).
    change (String.concat "/" (d :: d' :: ds))
      with (d +:+ "/" +:+ String.concat "/" (d' :: ds)).
    rewrite <- IH, below_cons. reflexivity.
Qed.

Lemma files_under_nonempty (dir : entry) (names : list string) :
  In names (files_under dir) -> names <> [].
Proof.
  destruct dir as [f|name entries]; [intros []|].
  rewrite files_under_Dir, in_app_iff, in_map_iff, in_flat_map.
  intros [(file & <- & _)|([f|d ch] & _ & Hin)]; [discriminate|contradiction|].
  cbn [sub_files] in Hin. destruct (String.eqb d ".git"); [contradiction|].
  apply in_map_iff in Hin as (rest & <- & _). discriminate.
Qed.

(** The paths the walk of a directory looks at are the files under it,
    each behind the names that lead to the directory. *)
Lemma paths_of_os_walk (dir : entry) :
  well_formed dir = true ->
  forall ds, Forall (fun name => valid_name name = true) ds ->
  paths_of (os_walk (root_of ds) dir) =
    map (fun names => Py.drop_first (below (ds ++ names))) (files_under dir).
Proof.
  induction dir as [name|name entries IH] using entry_ind_Forall;
    intros Hwf ds Hds; [reflexivity|].
  apply well_formed_Dir in Hwf as (_ & Hdist & Hsub).
  rewrite os_walk_flat_map, paths_of_cons, files_under_Dir, map_app by assumption.
  f_equal.
  - rewrite map_map. apply map_ext_in. intros file Hfile.
    apply rel_path_root_of; [assumption|].
    rewrite In_file_names in Hfile. rewrite List.Forall_forall in Hsub.
    exact (Hsub _ Hfile).
  - clear Hdist. induction entries as [|e es IHes]; [reflexivity|].
    apply Forall_cons_iff in IH as [IHe IH].
    apply Forall_cons_iff in Hsub as [Hwfe Hsub].
    cbn [flat_map]. rewrite paths_of_app, map_app, (IHes IH Hsub).
    f_equal. destruct e as [f|d ch]; [reflexivity|].
    cbn [walk_sub sub_files]. destruct (String.eqb d ".git"); [reflexivity|].
    pose proof Hwfe as Hd. apply well_formed_Dir in Hd as [Hd _].
    rewrite join_root_of by assumption.
    rewrite (IHe Hwfe (ds ++ [d])), map_map.
    + apply map_ext. intros names. now rewrite <- app_assoc.
    + apply Forall_app. split; [assumption | now constructor].
Qed.

Lemma candidates_files_under (entries : list entry) :
  well_formed (Dir "." entries) = true ->
  candidates entries = map (String.concat "/") (files_under (Dir "." entries)).
Proof.
  intros Hwf. unfold candidates.
  change "." with (root_of []) at 1.
  rewrite (paths_of_os_walk _ Hwf [] (List.Forall_nil _)).
  apply map_ext_in. intros names Hin. cbn [app].
  destruct names as [|d ds]; [now apply files_under_nonempty in Hin|].
  apply below_concat.
Qed.

End FilesUnderFacts.

(** X5. On a well-formed tree the two loops of [gather_source_files]
    gather the files under the top directory in the order of
    [files_under] (the files of a directory, then its sub-directories
    one after the other, ".git" apart), each under its names joined by
    "/", and keep those that are neither excluded nor ignored. *)
Theorem gather_source_files_enumeration (entries : list entry)
    (ignore_patterns : list string) (exclude_files : gset string) :
  well_formed (Dir "." entries) = true ->
  gather_source_files entries ignore_patterns exclude_files =
    List.filter
      (fun path =>
         negb (bool_decide (path ∈ exclude_files))
         && negb (is_ignored path ignore_patterns))
      (map (String.concat "/") (files_under (Dir "." entries))).
Proof.
  intros Hwf. rewrite gather_source_files_filter.
  now rewrite candidates_files_under.
Qed.

Lemma gather_source_files_enumeration_witness :
  files_under (Dir "." nested_listing)
  = [["a.txt"]; ["src"; "main.py"]; ["src"; "lib"; "util.py"]]
  /\ gather_source_files nested_listing ["*.py"; "!util.py"] ∅
     = ["a.txt"; "src/lib/util.py"].
Proof.
  split; [reflexivity|].
  rewrite (gather_source_files_enumeration nested_listing ["*.py"; "!util.py"] ∅);
    [|reflexivity].
  vm_compute. reflexivity.
Defined.

Section ReachableFacts.

Lemma reaches_nonempty (entries : list entry) (names : list string) :
  reaches entries names -> names <> [].
Proof. intros []; discriminate. Qed.

Lemma removelast_cons (name : string) (names : list string) :
  names <> [] -> removelast (name :: names) = name :: removelast names.
Proof. destruct names; [contradiction | reflexivity]. Qed.

Lemma files_under_reaches (dir : entry) :
  forall name entries names,
    dir = Dir name entries ->
    In names (files_under dir) ->
    reaches entries names /\ ~ In ".git" (removelast names).
Proof.
  induction dir as [f|n es IH] using entry_ind_Forall;
    intros name entries names [= <- <-] Hin.
  rewrite files_under_Dir, in_app_iff, in_map_iff, in_flat_map in Hin.
  destruct Hin as [(file & <- & Hfile)|(e & He & Hin)].
  - rewrite In_file_names in Hfile. split; [now constructor | intros []].
  - rewrite List.Forall_forall in IH. specialize (IH e He).
    destruct e as [f|d ch]; [contradiction|]. cbn [sub_files] in Hin.
    destruct (String.eqb d ".git") eqn:E; [contradiction|].
    apply String.eqb_neq in E.
    apply in_map_iff in Hin as (rest & <- & Hrest).
    destruct (IH d ch rest eq_refl Hrest) as [Hreach Hgit].
    split; [now apply (reaches_dir es ch)|].
    rewrite removelast_cons by now apply (reaches_nonempty ch).
    intros [Heq|Hin]; [now apply E | now apply Hgit].
Qed.

Lemma reaches_files_under (entries : list entry) (names : list string) :
  reaches entries names ->
  ~ In ".git" (removelast names) ->
  forall name, In names (files_under (Dir name entries)).
Proof.
  induction 1 as [es file Hfile|es ch d rest Hdir Hreach IH]; intros Hgit name;
    rewrite files_under_Dir, in_app_iff.
  - left. apply (in_map (fun file => [file])). now apply In_file_names.
  - right. apply in_flat_map. exists (Dir d ch). split; [assumption|].
    rewrite removelast_cons in Hgit by now apply (reaches_nonempty ch).
    cbn [sub_files].
    destruct (String.eqb d ".git") eqn:E.
    + apply String.eqb_eq in E. exfalso. apply Hgit. now left.
    + apply (in_map (cons d)). apply IH. intros Hin. apply Hgit. now right.
Qed.

End ReachableFacts.

(** X6. On a well-formed tree a path is gathered exactly when it is the
    "/"-joined names of a file that is reached from the top directory
    through directories not named ".git", and the path is neither in the
    exclusion set nor ignored: no such file is lost and nothing else is
    gathered. *)
Theorem gathered_iff_reachable (entries : list entry)
    (ignore_patterns : list string) (exclude_files : gset string) (path : string) :
  well_formed (Dir "." entries) = true ->
  In path (gather_source_files entries ignore_patterns exclude_files)
  <-> exists names,
        reaches entries names
        /\ ~ In ".git" (removelast names)
        /\ path = String.concat "/" names
        /\ (path ∉ exclude_files)
        /\ is_ignored path ignore_patterns = false.
Proof.
  intros Hwf.
  rewrite gather_source_files_In, candidates_files_under, in_map_iff by assumption.
  split.
  - intros ((names & <- & Hin) & Hex & Hign).
    exists names.
    destruct (files_under_reaches _ "." entries names eq_refl Hin) as [Hr Hg].
    tauto.
  - intros (names & Hr & Hg & -> & Hex & Hign).
    split; [|tauto]. exists names. split; [reflexivity|].
    now apply reaches_files_under.
Qed.

Lemma gathered_iff_reachable_witness :
  In "src/lib/util.py" (gather_source_files nested_listing [] ∅)
  /\ ~ In "src/.git/config" (gather_source_files nested_listing [] ∅).
Proof.
  split.
  - apply (gathered_iff_reachable nested_listing [] ∅ "src/lib/util.py");
      [reflexivity|].
    exists ["src"; "lib"; "util.py"].
    split.
    { eapply reaches_dir; [cbn; eauto|].
      eapply reaches_dir; [cbn; eauto|].
      apply reaches_file. cbn. eauto. }
    split; [cbn; intros [H|[H|[]]]; discriminate H|].
    split; [reflexivity|]. split; [set_solver | reflexivity].
  - vm_compute. intros [H|[H|[H|[]]]]; discriminate H.
Defined.

Section NoDupFacts.

Lemma distinct_file_names (entries : list entry) :
  distinct (map entry_name entries) = true -> List.NoDup (file_names entries).
Proof.
  induction entries as [|[f|d ch] es IH]; [constructor| |];
    cbn [map entry_name]; rewrite distinct_cons; intros [Hfresh Hd].
  - change (file_names (File f :: es)) with (f :: file_names es).
    constructor; [|now apply IH].
    intros Hin. apply Hfresh. rewrite In_file_names in Hin.
    apply (in_map entry_name) in Hin. exact Hin.
  - now apply IH.
Qed.

Lemma sub_files_head (e : entry) (names : list string) :
  In names (sub_files e) -> exists rest, names = entry_name e :: rest.
Proof.
  destruct e as [f|d ch]; [intros []|]. cbn [sub_files entry_name].
  destruct (String.eqb d ".git"); [intros []|].
  rewrite in_map_iff. intros (rest & <- & _). now exists rest.
Qed.

Lemma NoDup_sub_files (entries : list entry) :
  distinct (map entry_name entries) = true ->
  Forall (fun e => List.NoDup (files_under e)) entries ->
  List.NoDup (flat_map sub_files entries).
Proof.
  induction entries as [|e es IH]; [constructor|].
  cbn [map]. rewrite distinct_cons. intros [Hfresh Hd] Hall.
  apply Forall_cons_iff in Hall as [He Hall].
  cbn [flat_map]. apply List.NoDup_app; [|now apply IH|].
  - destruct e as [f|d ch]; [constructor|]. cbn [sub_files].
    destruct (String.eqb d ".git"); [constructor|].
    apply NoDup_map_NoDup_ForallPairs; [|assumption].
    intros x y _ _ [= ->]. reflexivity.
  - intros names Hin Hin'. apply sub_files_head in Hin as [rest ->].
    apply in_flat_map in Hin' as (e' & He' & Hin').
    apply sub_files_head in Hin' as [rest' [= Hname _]].
    apply Hfresh. rewrite Hname. now apply in_map.
Qed.

Lemma NoDup_files_under (dir : entry) :
  well_formed dir = true -> List.NoDup (files_under dir).
Proof.
  induction dir as [f|name entries IH] using entry_ind_Forall;
    intros Hwf; [constructor|].
  apply well_formed_Dir in Hwf as (_ & Hdist & Hsub).
  rewrite files_under_Dir. apply List.NoDup_app.
  - apply NoDup_map_NoDup_ForallPairs; [|now apply distinct_file_names].
    intros x y _ _ [= ->]. reflexivity.
  - apply NoDup_sub_files; [assumption|].
    rewrite List.Forall_forall in *. intros e He. apply IH; auto.
  - intros names Hfile Hsubs.
    apply in_map_iff in Hfile as (file & <- & Hfile).
    apply in_flat_map in Hsubs as (e & He & Hin).
    destruct e as [f|d ch]; [contradiction|].
    apply sub_files_head in Hin as [rest [= -> _]].
    apply (file_is_no_dir d entries Hdist Hfile).
    apply In_dir_names. now exists ch.
Qed.

Lemma files_under_valid (dir : entry) :
  well_formed dir = true ->
  forall names, In names (files_under dir) ->
  Forall (fun name => valid_name name = true) names.
Proof.
  induction dir as [f|name entries IH] using entry_ind_Forall;
    intros Hwf names Hin; [contradiction|].
  apply well_formed_Dir in Hwf as (_ & _ & Hsub).
  rewrite List.Forall_forall in IH, Hsub.
  rewrite files_under_Dir, in_app_iff, in_map_iff, in_flat_map in Hin.
  destruct Hin as [(file & <- & Hfile)|(e & He & Hin)].
  - rewrite In_file_names in Hfile. constructor; [|constructor].
    exact (Hsub _ Hfile).
  - destruct e as [f|d ch]; [contradiction|]. cbn [sub_files] in Hin.
    destruct (String.eqb d ".git"); [contradiction|].
    apply in_map_iff in Hin as (rest & <- & Hrest).
    pose proof (Hsub _ He) as Hwfe.
    constructor; [|now apply (IH _ He Hwfe)].
    now apply well_formed_Dir in Hwfe as [Hd _].
Qed.

(** The names can be read back from the path. *)
Lemma split_concat (names : list string) :
  names <> [] ->
  Forall (fun name => valid_name name = true) names ->
  Py.split (String.concat "/" names) "/" = names.
Proof.
  intros Hne Hvalid. destruct names as [|d ds]; [contradiction|].
  rewrite <- below_concat. apply split_below.
  now apply valid_names_no_slash.
Qed.

Lemma NoDup_candidates (entries : list entry) :
  well_formed (Dir "." entries) = true -> List.NoDup (candidates entries).
Proof.
  intros Hwf. rewrite candidates_files_under by assumption.
  apply NoDup_map_NoDup_ForallPairs; [|now apply NoDup_files_under].
  intros x y Hx Hy Heq.
  rewrite <- (split_concat x), <- (split_concat y), Heq;
    eauto using files_under_nonempty, files_under_valid.
Qed.

End NoDupFacts.

(** X7. On a well-formed tree no path is gathered twice, so the sorted
    list [main] renders has no repetition and every file gets one
    section only. *)
Theorem no_file_gathered_twice (entries : list entry)
    (ignore_patterns : list string) (exclude_files : gset string) :
  well_formed (Dir "." entries) = true ->
  List.NoDup (gather_source_files entries ignore_patterns exclude_files)
  /\ List.NoDup (sort (gather_source_files entries ignore_patterns exclude_files))
  /\ (forall w, top_entries w = entries -> List.NoDup (main_source_files w)).
Proof.
  intros Hwf.
  assert (Hnd : forall pats excl,
             List.NoDup (sort (gather_source_files entries pats excl))).
  { intros pats excl. unfold sort. rewrite merge_sort_Permutation.
    rewrite gather_source_files_filter.
    apply List.NoDup_filter. now apply NoDup_candidates. }
  split; [|split].
  - rewrite gather_source_files_filter.
    apply List.NoDup_filter. now apply NoDup_candidates.
  - apply Hnd.
  - intros w <-. apply Hnd.
Qed.

Lemma no_file_gathered_twice_witness :
  List.NoDup (gather_source_files nested_listing [] ∅)
  /\ gather_source_files [File "a"; File "a"] [] ∅ = ["a"; "a"].
Proof.
  split; [|reflexivity].
  apply (no_file_gathered_twice nested_listing [] ∅). reflexivity.
Defined.

(** * Properties of [read_gitignore] and [get_git_commits] *)

Section StripFacts.

Import PyText.

Lemma lstrip_cons (c : ascii) (s : string) :
  lstrip (String c s) = if isspace c then lstrip s else String c s.
Proof. reflexivity. Qed.

Lemma rstrip_cons (c : ascii) (s : string) :
  rstrip (String c s) =
    match rstrip s with
    | EmptyString => if isspace c then EmptyString else String c EmptyString
    | r => String c r
    end.
Proof. reflexivity. Qed.

Lemma lstrip_idem (s : string) : lstrip (lstrip s) = lstrip s.
Proof.
  induction s as [|c s IH]; [reflexivity|].
  rewrite lstrip_cons. destruct (isspace c) eqn:E; [exact IH|].
  now rewrite lstrip_cons, E.
Qed.

Lemma rstrip_idem (s : string) : rstrip (rstrip s) = rstrip s.
Proof.
  induction s as [|c s IH]; [reflexivity|].
  rewrite rstrip_cons. destruct (rstrip s) as [|d r] eqn:E.
  - destruct (isspace c) eqn:Ec; [reflexivity|].
    now rewrite rstrip_cons, Ec.
  - now rewrite rstrip_cons, IH.
Qed.

Lemma rstrip_fixed_tail (c : ascii) (s : string) :
  isspace c = true -> rstrip (String c s) = String c s -> rstrip s = s.
Proof.
  intros Ec. rewrite rstrip_cons, Ec.
  destruct (rstrip s) as [|d r]; [discriminate|]. now intros [= ->].
Qed.

Lemma rstrip_lstrip_fixed (s : string) : rstrip s = s -> rstrip (lstrip s) = lstrip s.
Proof.
  induction s as [|c s IH]; [reflexivity|]. intros Hfix.
  rewrite lstrip_cons. destruct (isspace c) eqn:Ec; [|exact Hfix].
  apply IH. now apply (rstrip_fixed_tail c).
Qed.

Lemma strip_idem (s : string) : strip (strip s) = strip s.
Proof.
  unfold strip.
  rewrite (rstrip_lstrip_fixed (rstrip s)) by apply rstrip_idem.
  apply lstrip_idem.
Qed.

Lemma strip_fixed (s : string) : strip s = s -> lstrip s = s /\ rstrip s = s.
Proof.
  intros H.
  assert (Hr : rstrip s = s).
  { rewrite <- H at 1. unfold strip.
    rewrite (rstrip_lstrip_fixed (rstrip s)) by apply rstrip_idem. exact H. }
  split; [|exact Hr]. unfold strip in H. now rewrite Hr in H.
Qed.

Lemma rstrip_snoc_space (s : string) (c : ascii) :
  isspace c = true -> rstrip (s +:+ String c "") = rstrip s.
Proof.
  intros Ec. induction s as [|d s IH].
  - change ("" +:+ String c "") with (String c "").
    now rewrite rstrip_cons, Ec.
  - change (String d s +:+ String c "") with (String d (s +:+ String c "")).
    now rewrite !rstrip_cons, IH.
Qed.

Lemma rstrip_app (a b : string) :
  rstrip b <> "" -> rstrip (a +:+ b) = a +:+ rstrip b.
Proof.
  intros Hb. induction a as [|c a IH]; [reflexivity|].
  change (String c a +:+ b) with (String c (a +:+ b)).
  rewrite rstrip_cons, IH.
  change (String c a +:+ rstrip b) with (String c (a +:+ rstrip b)).
  destruct (a +:+ rstrip b) eqn:E; [|reflexivity].
  exfalso. apply Hb. destruct a; [exact E | discriminate E].
Qed.

Lemma lstrip_app (a b : string) :
  a <> "" -> lstrip a = a -> lstrip (a +:+ b) = a +:+ b.
Proof.
  destruct a as [|c a]; [contradiction|]. intros _.
  change (String c a +:+ b) with (String c (a +:+ b)).
  rewrite !lstrip_cons. destruct (isspace c); [|reflexivity].
  intros H. exfalso.
  assert (Hlen : forall s, String.length (lstrip s) <= String.length s).
  { induction s as [|d s IH]; [reflexivity|].
    rewrite lstrip_cons. destruct (isspace d); cbn [String.length]; lia. }
  specialize (Hlen a). rewrite H in Hlen. cbn [String.length] in Hlen. lia.
Qed.

End StripFacts.

Section ReadGitignoreFacts.

Import PyText.

Lemma read_gitignore_lines_app (lines : list string) (patterns : list string) :
  fold_left read_gitignore_line lines patterns =
    patterns ++ fold_left read_gitignore_line lines [].
Proof.
  revert patterns. induction lines as [|line lines IH]; intros patterns.
  - cbn. now rewrite app_nil_r.
  - cbn [fold_left]. rewrite IH, (IH (read_gitignore_line [] line)).
    unfold read_gitignore_line.
    destruct (negb (String.eqb (strip line) "")
              && negb (Py.startswith (strip line) "#"));
      [now rewrite app_assoc | now rewrite app_nil_l].
Qed.

Lemma read_gitignore_lines_invariant (lines : list string) :
  Forall (fun pattern =>
            pattern <> ""
            /\ Py.startswith pattern "#" = false
            /\ strip pattern = pattern
            /\ In pattern (map strip lines))
    (fold_left read_gitignore_line lines []).
Proof.
  induction lines as [|line lines IH]; [constructor|].
  cbn [fold_left]. rewrite read_gitignore_lines_app. apply Forall_app. split.
  - unfold read_gitignore_line.
    destruct (negb (String.eqb (strip line) "")) eqn:E1; [|constructor].
    destruct (negb (Py.startswith (strip line) "#")) eqn:E2; [|constructor].
    cbn [andb app]. constructor; [|constructor].
    apply negb_true_iff in E1, E2. apply String.eqb_neq in E1.
    repeat split; [assumption.. | apply strip_idem | now left].
  - eapply Forall_impl; [exact IH|].
    intros pattern (H1 & H2 & H3 & H4). repeat split; try assumption. now right.
Qed.

End ReadGitignoreFacts.

(** X8. Whatever the text of ".gitignore", every pattern that
    [read_gitignore] returns is a stripped line of the file, is not
    empty, does not start with "#" and has no white space at either
    end; a missing file gives no pattern, and reading the returned
    patterns again as lines gives them back unchanged. *)
Theorem read_gitignore_patterns (gitignore_file : option (string + string))
    (patterns : list string) :
  read_gitignore gitignore_file = Return patterns ->
  Forall (fun pattern =>
            pattern <> ""
            /\ Py.startswith pattern "#" = false
            /\ PyText.strip pattern = pattern)
    patterns
  /\ (forall text pattern,
         gitignore_file = Some (inl text) ->
         In pattern patterns ->
         In pattern
           (map PyText.strip (PyText.lines_of (PyText.universal_newlines text))))
  /\ (gitignore_file = None -> patterns = [])
  /\ fold_left read_gitignore_line patterns [] = patterns.
Proof.
  intros Hread.
  assert (Hinv : Forall (fun pattern =>
                           pattern <> ""
                           /\ Py.startswith pattern "#" = false
                           /\ PyText.strip pattern = pattern) patterns).
  { destruct gitignore_file as [[text|e]|]; cbn [read_gitignore] in Hread.
    - injection Hread as <-.
      eapply Forall_impl; [apply read_gitignore_lines_invariant|].
      cbn beta. tauto.
    - discriminate Hread.
    - injection Hread as <-. constructor. }
  split; [exact Hinv|]. split; [|split].
  - intros text pattern -> Hin. injection Hread as <-.
    pose proof (read_gitignore_lines_invariant
                  (PyText.lines_of (PyText.universal_newlines text))) as Hall.
    rewrite List.Forall_forall in Hall. now apply Hall.
  - intros ->. now injection Hread as <-.
  - clear Hread. induction Hinv as [|p ps (Hne & Hc & Hs) _ IH]; [reflexivity|].
    cbn [fold_left]. rewrite read_gitignore_lines_app, IH.
    unfold read_gitignore_line. rewrite Hs, Hc.
    apply String.eqb_neq in Hne. now rewrite Hne.
Qed.

Lemma read_gitignore_patterns_witness :
  read_gitignore
    (Some (inl ("# build output" +:+ nl +:+ "  *.log  " +:+ nl +:+ nl
                +:+ "   # note" +:+ nl +:+ "!keep.log")))
  = Return ["*.log"; "!keep.log"]
  /\ PyText.strip "*.log" = "*.log".
Proof.
  split; [reflexivity|].
  destruct (read_gitignore_patterns
              (Some (inl ("# build output" +:+ nl +:+ "  *.log  " +:+ nl +:+ nl
                          +:+ "   # note" +:+ nl +:+ "!keep.log")))
              ["*.log"; "!keep.log"] eq_refl) as [Hall _].
  apply Forall_inv in Hall. apply Hall.
Defined.

Section TextLinesFacts.

Import PyText.

Lemma universal_newlines_cons (c : ascii) (s : string) :
  Ascii.eqb c "013" = false ->
  universal_newlines (String c s) = String c (universal_newlines s).
Proof. intros H. cbn [universal_newlines]. now rewrite H. Qed.

Lemma universal_newlines_cr_lf (s : string) :
  universal_newlines (String "013" (String "010" s)) =
    String "010" (universal_newlines s).
Proof. reflexivity. Qed.

Lemma universal_newlines_cr (d : ascii) (s : string) :
  Ascii.eqb d "010" = false ->
  universal_newlines (String "013" (String d s)) =
    String "010" (universal_newlines (String d s)).
Proof.
  intros H. cbn [universal_newlines]. rewrite H. reflexivity.
Qed.

Lemma lines_of_newline (s : string) :
  lines_of (String "010" s) = nl :: lines_of s.
Proof. reflexivity. Qed.

Lemma lines_of_cons (c : ascii) (s : string) :
  Ascii.eqb c "010" = false ->
  lines_of (String c s) =
    match lines_of s with
    | [] => [String c ""]
    | first :: others => String c first :: others
    end.
Proof. intros H. cbn [lines_of]. now rewrite H. Qed.

Lemma text_lines_cons (c : ascii) (s : string) :
  Ascii.eqb c "013" = false ->
  text_lines (String c s) = lines_of (String c (universal_newlines s)).
Proof. intros H. unfold text_lines. now rewrite universal_newlines_cons. Qed.

Lemma text_lines_nonempty (c : ascii) (s : string) : text_lines (String c s) <> [].
Proof.
  unfold text_lines.
  assert (H : exists d u, universal_newlines (String c s) = String d u).
  { cbn [universal_newlines]. destruct (Ascii.eqb c "013"); [|eauto].
    destruct s as [|d s]; [eauto|]. destruct (Ascii.eqb d "010"); eauto. }
  destruct H as (d & u & ->). cbn [lines_of].
  destruct (Ascii.eqb d "010"); [discriminate|].
  destruct (lines_of u); discriminate.
Qed.

(** The lines of a text that ends a line and goes on are the lines of
    the two parts. *)
Lemma text_lines_app_both (h : string) :
  (forall rest, text_lines (h +:+ nl +:+ rest)
                = text_lines (h +:+ nl) ++ text_lines rest)
  /\ (forall c rest, text_lines (String c h +:+ nl +:+ rest)
                     = text_lines (String c h +:+ nl) ++ text_lines rest).
Proof.
  assert (Hstep : forall c t,
             (forall rest, text_lines (t +:+ nl +:+ rest)
                           = text_lines (t +:+ nl) ++ text_lines rest) ->
             Ascii.eqb c "013" = false ->
             t <> "" ->
             forall rest, text_lines (String c t +:+ nl +:+ rest)
                          = text_lines (String c t +:+ nl) ++ text_lines rest).
  { intros c t Ht Hc Hne rest.
    change (String c t +:+ nl +:+ rest) with (String c (t +:+ nl +:+ rest)).
    change (String c t +:+ nl) with (String c (t +:+ nl)).
    rewrite !text_lines_cons by assumption.
    cbn [lines_of].
    change (lines_of (universal_newlines ?x)) with (text_lines x).
    rewrite Ht.
    destruct (Ascii.eqb c "010"); [reflexivity|].
    destruct t as [|d t]; [contradiction|].
    destruct (text_lines (String d t +:+ nl)) eqn:E; [|reflexivity].
    now apply text_lines_nonempty in E. }
  induction h as [|d h [IH1 IH2]].
  - split; [reflexivity|]. intros c rest.
    destruct (Ascii.eqb c "013") eqn:Hc.
    + apply Ascii.eqb_eq in Hc as ->. reflexivity.
    + change (String c "" +:+ nl +:+ rest) with (String c (String "010" rest)).
      change (String c "" +:+ nl) with (String c (String "010" "")).
      rewrite !text_lines_cons by assumption.
      change (universal_newlines (String "010" ?s))
        with (String "010" (universal_newlines s)).
      cbn [lines_of]. change (Ascii.eqb "010" "010") with true. cbv iota.
      now destruct (Ascii.eqb c "010").
  - split; [exact (IH2 d)|]. intros c rest.
    destruct (Ascii.eqb c "013") eqn:Hc.
    + apply Ascii.eqb_eq in Hc as ->.
      destruct (Ascii.eqb d "010") eqn:Hd.
      * apply Ascii.eqb_eq in Hd as ->. unfold text_lines.
        change (String "013" (String "010" h) +:+ nl +:+ rest)
          with (String "013" (String "010" (h +:+ nl +:+ rest))).
        change (String "013" (String "010" h) +:+ nl)
          with (String "013" (String "010" (h +:+ nl))).
        rewrite !universal_newlines_cr_lf, !lines_of_newline.
        fold (text_lines (h +:+ nl +:+ rest)). fold (text_lines (h +:+ nl)).
        now rewrite IH1.
      * unfold text_lines.
        change (String "013" (String d h) +:+ nl +:+ rest)
          with (String "013" (String d (h +:+ nl +:+ rest))).
        change (String "013" (String d h) +:+ nl)
          with (String "013" (String d (h +:+ nl))).
        rewrite !universal_newlines_cr, !lines_of_newline by assumption.
        change (String d (h +:+ nl +:+ rest)) with (String d h +:+ nl +:+ rest).
        change (String d (h +:+ nl)) with (String d h +:+ nl).
        fold (text_lines (String d h +:+ nl +:+ rest)).
        fold (text_lines (String d h +:+ nl)).
        now rewrite (IH2 d).
    + apply Hstep; [exact (IH2 d) | assumption | discriminate].
Qed.

Lemma text_lines_app (h rest : string) :
  text_lines (h +:+ nl +:+ rest) = text_lines (h +:+ nl) ++ text_lines rest.
Proof. apply text_lines_app_both. Qed.

(** A line without carriage return and newline, with its newline, is
    one line of the text. *)
Lemma text_lines_line (line rest : string) :
  Py.contains "010" line = false ->
  Py.contains "013" line = false ->
  text_lines (line +:+ nl +:+ rest) = (line +:+ nl) :: text_lines rest.
Proof.
  induction line as [|c line IH]; [reflexivity|].
  cbn [Py.contains]. intros Hn Hr.
  apply orb_false_elim in Hn as [Hn Hn'], Hr as [Hr Hr'].
  rewrite Ascii.eqb_sym in Hn, Hr.
  change (String c line +:+ nl +:+ rest) with (String c (line +:+ nl +:+ rest)).
  rewrite text_lines_cons by assumption.
  rewrite lines_of_cons by assumption.
  fold (text_lines (line +:+ nl +:+ rest)). now rewrite IH.
Qed.

End TextLinesFacts.

Section SkippedLineFacts.

Lemma strip_line_newline (line : string) :
  PyText.strip (line +:+ nl) = PyText.strip line.
Proof.
  unfold PyText.strip, nl. now rewrite rstrip_snoc_space.
Qed.

Lemma read_gitignore_line_skipped (patterns : list string) (line : string) :
  PyText.strip line = "" \/ Py.startswith (PyText.strip line) "#" = true ->
  read_gitignore_line patterns (line +:+ nl) = patterns.
Proof.
  intros H. unfold read_gitignore_line. rewrite strip_line_newline.
  destruct H as [-> | ->]; [reflexivity | now rewrite andb_false_r].
Qed.

End SkippedLineFacts.

(** X9. A blank line or a comment line, anywhere in ".gitignore", has
    no effect on the patterns read: the file with the line and the file
    without it give the same list.  The text before the line is empty or
    ends a line, and the line holds neither newline nor carriage
    return. *)
Theorem comment_and_blank_lines_are_skipped (head line tail : string) :
  head = "" \/ (exists h, head = h +:+ nl) ->
  Py.contains "010" line = false ->
  Py.contains "013" line = false ->
  PyText.strip line = "" \/ Py.startswith (PyText.strip line) "#" = true ->
  read_gitignore (Some (inl (head +:+ line +:+ nl +:+ tail)))
  = read_gitignore (Some (inl (head +:+ tail))).
Proof.
  intros Hhead Hn Hr Hskip. cbn [read_gitignore]. f_equal.
  change (PyText.lines_of (PyText.universal_newlines ?x)) with (text_lines x).
  destruct Hhead as [->|[h ->]].
  - change ("" +:+ ?x) with x.
    rewrite text_lines_line by assumption. cbn [fold_left].
    now rewrite read_gitignore_line_skipped.
  - rewrite !string_app_assoc, (text_lines_app h (line +:+ nl +:+ tail)),
      (text_lines_app h tail), text_lines_line by assumption.
    rewrite !fold_left_app. cbn [fold_left].
    now rewrite read_gitignore_line_skipped.
Qed.

Lemma comment_and_blank_lines_are_skipped_witness :
  read_gitignore (Some (inl ("*.log" +:+ nl +:+ "  # keep this" +:+ nl +:+ "dist/")))
  = read_gitignore (Some (inl ("*.log" +:+ nl +:+ "dist/")))
  /\ read_gitignore (Some (inl ("*.log" +:+ nl +:+ "dist/")))
     = Return ["*.log"; "dist/"].
Proof.
  split; [|reflexivity].
  apply (comment_and_blank_lines_are_skipped ("*.log" +:+ nl) "  # keep this" "dist/").
  - right. now exists "*.log".
  - reflexivity.
  - reflexivity.
  - right. reflexivity.
Defined.

Section SplitLinesFacts.

Import PyText.

Local Arguments String.append : simpl nomatch.

Lemma islinebreak_cr (c : ascii) : islinebreak c = false -> Ascii.eqb c "013" = false.
Proof.
  intros H. destruct (Ascii.eqb c "013") eqn:E; [|reflexivity].
  apply Ascii.eqb_eq in E as ->. discriminate H.
Qed.

Lemma splitlines_cons (c : ascii) (s : string) :
  islinebreak c = false ->
  splitlines (String c s) =
    match splitlines s with
    | [] => [String c ""]
    | first :: others => String c first :: others
    end.
Proof.
  intros H. cbn [splitlines]. now rewrite (islinebreak_cr c H), H.
Qed.

Lemma splitlines_one (subject : string) :
  subject <> "" -> has_linebreak subject = false -> splitlines subject = [subject].
Proof.
  induction subject as [|c s IH]; [contradiction|]. intros _.
  cbn [has_linebreak]. intros H. apply orb_false_elim in H as [Hc Hs].
  rewrite splitlines_cons by assumption.
  destruct s as [|d s]; [reflexivity|].
  now rewrite IH.
Qed.

Lemma splitlines_line (subject rest : string) :
  has_linebreak subject = false ->
  splitlines (subject +:+ nl +:+ rest) = subject :: splitlines rest.
Proof.
  induction subject as [|c s IH]; [reflexivity|].
  cbn [has_linebreak]. intros H. apply orb_false_elim in H as [Hc Hs].
  cbn [String.append]. rewrite splitlines_cons by assumption.
  now rewrite IH.
Qed.

Lemma concat_nonempty (subject : string) (subjects : list string) :
  subject <> "" -> String.concat nl (subject :: subjects) <> "".
Proof.
  intros Hne. destruct subjects as [|s2 rest]; [exact Hne|].
  cbn [String.concat]. destruct subject; [contradiction | discriminate].
Qed.

Lemma concat_cons (subject next : string) (subjects : list string) :
  String.concat nl (subject :: next :: subjects) =
    subject +:+ nl +:+ String.concat nl (next :: subjects).
Proof. reflexivity. Qed.

Lemma git_log_output_cons (subject : string) (subjects : list string) :
  git_log_output (subject :: subjects) = subject +:+ nl +:+ git_log_output subjects.
Proof.
  unfold git_log_output. cbn [map concat_strings fold_right].
  apply string_app_assoc.
Qed.

Lemma rstrip_git_log_output (subject : string) (subjects : list string) :
  Forall (fun s => s <> "" /\ strip s = s /\ has_linebreak s = false)
    (subject :: subjects) ->
  rstrip (git_log_output (subject :: subjects)) = String.concat nl (subject :: subjects).
Proof.
  revert subject. induction subjects as [|next rest IH]; intros subject Hall.
  - apply Forall_inv in Hall as (Hne & Hs & _).
    rewrite git_log_output_cons. unfold git_log_output at 1.
    cbn [map concat_strings fold_right]. rewrite string_app_nil_r.
    unfold nl. rewrite rstrip_snoc_space by reflexivity.
    now apply strip_fixed in Hs as [_ Hr].
  - pose proof (Forall_inv_tail Hall) as Hrest.
    rewrite git_log_output_cons, concat_cons, <- (IH next Hrest).
    rewrite <- !string_app_assoc. apply rstrip_app.
    rewrite (IH next Hrest). apply concat_nonempty.
    now apply Forall_inv in Hrest as [Hne _].
Qed.

Lemma splitlines_concat (subjects : list string) :
  Forall (fun s => s <> "" /\ strip s = s /\ has_linebreak s = false) subjects ->
  splitlines (String.concat nl subjects) = subjects.
Proof.
  induction subjects as [|subject [|next rest] IH]; intros Hall; [reflexivity| |].
  - apply Forall_inv in Hall as (Hne & _ & Hb). now apply splitlines_one.
  - pose proof (Forall_inv Hall) as (_ & _ & Hb).
    rewrite concat_cons, splitlines_line by assumption.
    f_equal. apply IH. now apply Forall_inv_tail in Hall.
Qed.

End SplitLinesFacts.

(** X10. When every subject is non-empty, has no white space at its
    ends and holds no line break, [get_git_commits] returns the
    subjects printed by the log, in their order.  An output of white
    space only gives no commit, as a failed command does. *)
Theorem get_git_commits_round_trip (subjects : list string) :
  Forall (fun subject =>
            subject <> ""
            /\ PyText.strip subject = subject
            /\ has_linebreak subject = false)
    subjects ->
  get_git_commits (Completed (git_log_output subjects)) = Return subjects
  /\ (forall stdout,
         PyText.strip stdout = "" ->
         get_git_commits (Completed stdout) = get_git_commits CalledProcessError).
Proof.
  intros Hall. split.
  - cbn [get_git_commits]. f_equal.
    destruct subjects as [|subject rest]; [reflexivity|].
    unfold PyText.strip. rewrite rstrip_git_log_output by assumption.
    assert (Hl : PyText.lstrip (String.concat nl (subject :: rest))
                 = String.concat nl (subject :: rest)).
    { pose proof (Forall_inv Hall) as (Hne & Hs & _).
      apply strip_fixed in Hs as [Hl _].
      destruct rest as [|next rest]; [exact Hl|].
      rewrite concat_cons. now apply lstrip_app. }
    rewrite Hl. now apply splitlines_concat.
  - intros stdout Hs. cbn [get_git_commits]. now rewrite Hs.
Qed.

Lemma get_git_commits_round_trip_witness :
  get_git_commits (Completed (git_log_output ["fix bug"; "add feature"]))
  = Return ["fix bug"; "add feature"]
  /\ get_git_commits (Completed (git_log_output ["fix bug"; ""])) = Return ["fix bug"].
Proof.
  split; [|reflexivity].
  apply (get_git_commits_round_trip ["fix bug"; "add feature"]).
  repeat constructor; discriminate.
Defined.

(** * Properties of the whole run *)

#[local] Set Warnings "-clear-no-such-hyp".

Section RunFacts.


End RunFacts.



(** X12. The exclusion set of [main] holds three names of the top
    directory and no path with a separator: on a well-formed tree a
    file README.md, .gitignore or repoed.md inside a directory (".git"
    apart) is rendered like any other file, unless a pattern ignores
    it. *)
Theorem nested_names_are_not_excluded (w : world) (names : list string) :
  well_formed (Dir "." (top_entries w)) = true ->
  reaches (top_entries w) names ->
  2 <= length names ->
  ~ In ".git" (removelast names) ->
  is_ignored (String.concat "/" names) (gitignore_patterns w) = false ->
  (String.concat "/" names ∉ main_exclude_files)
  /\ In (String.concat "/" names) (main_source_files w).
Proof.
  intros Hwf Hreach Hlen Hgit Hign.
  assert (Hex : String.concat "/" names ∉ main_exclude_files).
  { destruct names as [|d [|d' rest]]; cbn [length] in Hlen; [lia..|].
    assert (Hslash : Py.contains "/" (String.concat "/" (d :: d' :: rest)) = true).
    { change (String.concat "/" (d :: d' :: rest))
        with (d +:+ "/" +:+ String.concat "/" (d' :: rest)).
      rewrite !contains_app. cbn [Py.contains].
      change (Ascii.eqb "/" "/") with true. cbn [orb]. apply orb_true_r. }
    unfold main_exclude_files.
    rewrite !not_elem_of_union, !not_elem_of_singleton.
    repeat split; intros Heq; rewrite Heq in Hslash; discriminate Hslash. }
  split; [exact Hex|].
  unfold main_source_files. rewrite sort_In, gather_source_files_In.
  split; [|tauto].
  rewrite candidates_files_under by assumption.
  apply in_map. now apply reaches_files_under.
Qed.

Lemma nested_names_are_not_excluded_witness :
  main_source_files docs_world
  = ["docs/.gitignore"; "docs/README.md"; "docs/repoed.md"]
  /\ In "docs/README.md" (main_source_files docs_world).
Proof.
  split; [vm_compute; reflexivity|].
  apply (nested_names_are_not_excluded docs_world ["docs"; "README.md"]).
  - reflexivity.
  - eapply reaches_dir; [cbn; eauto 6|]. apply reaches_file. cbn. eauto.
  - cbn. lia.
  - cbn. intros [H|[]]. discriminate H.
  - reflexivity.
Defined.

(** X13. The document does not depend on the order in which the
    directories hand out their entries: two runs over listings of the
    same well-formed tree, all else equal, write the same text. *)
Theorem document_independent_of_listing_order (w : world)
    (entries1 entries2 : list entry) :
  well_formed (Dir "." entries1) = true ->
  same_tree (Dir "." entries1) (Dir "." entries2) ->
  main (with_top_entries w entries1) = main (with_top_entries w entries2).
Proof.
  intros Hwf Hsame. unfold main.
  change (main_source_files (with_top_entries w ?es))
    with (sort (gather_source_files es (gitignore_patterns w) main_exclude_files)).
  rewrite (sort_Permutation _ _
             (gather_same_tree (gitignore_patterns w) main_exclude_files
                entries1 entries2 Hwf Hsame)).
  reflexivity.
Qed.

Lemma document_independent_of_listing_order_witness :
  main (with_top_entries bare_world listing_one)
  = main (with_top_entries bare_world listing_two).
Proof.
  apply (document_independent_of_listing_order bare_world listing_one listing_two).
  - reflexivity.
  - apply (same_dir "." listing_one
             [File "a.txt"; File "b.txt"; Dir "src" [File "z.py"; File "a.py"]]
             listing_two).
    + apply perm_swap.
    + repeat constructor.
      apply (same_dir "src" _ [File "a.py"; File "z.py"] _).
      * apply perm_swap.
      * repeat constructor.
Defined.
